(** * bedrock-mcp: the MCP endpoint of [server.py]

    A shallow embedding of [server.py]: the values Flask hands to the
    endpoint, the two adapters with their cached handles, and the
    dispatcher [mcp_endpoint], followed by the properties of the
    dispatcher and of the adapters.

    Conventions.
    - A Python [str] is the Rocq [string] of its UTF-8 bytes, a surrogate
      being written like any other code point of its size: [utf8 l] is the
      string of the code points [l].  Equality and concatenation of
      strings are those of their bytes, and a string of ASCII characters
      is written as it reads.
    - A value decoded from JSON is a [json]; a [dict] keeps its items in
      insertion order, the way Python does.
    - A function that may raise returns a [result]; a function that also
      reads or writes the module globals or talks to Snowflake or
      Bedrock lives in the monad [M] over the [world]. *)

From Stdlib Require Import String Ascii List ZArith Bool DecimalString Lia.
Import ListNotations.
Local Open Scope string_scope.
Local Open Scope Z_scope.
Local Set Warnings "-register-all".

(** ** Python values *)

Module Py.

(** What [json.loads] builds.  A [dict] is the list of its items in
    insertion order, a key standing once; were a key to stand twice, its
    first item is the one that counts.  A float is named by the text
    [json.dumps] writes for it ([1.5], [NaN], [-Infinity]); nothing in the
    server computes with one. *)
Inductive json : Type :=
| JNull
| JBool (b : bool)
| JInt (z : Z)
| JFloat (literal : string)
| JStr (s : string)
| JArr (items : list json)
| JObj (items : list (string * json)).

(** An exception, an instance of [Exception]: its class and [str(e)].  Both
    [except Exception] and the bare [except] of the server catch it. *)
Record exn : Type := Raised { exn_class : string; exn_text : string }.

Inductive result (A : Type) : Type :=
| Ok (a : A)
| Raise (e : exn).
Arguments Ok {A} a.
Arguments Raise {A} e.

Definition nl : string := String (ascii_of_nat 10) EmptyString.
Definition dq : string := String (ascii_of_nat 34) EmptyString.

(** [type(v).__name__] *)
Definition type_name (v : json) : string :=
  match v with
  | JNull => "NoneType"
  | JBool _ => "bool"
  | JInt _ => "int"
  | JFloat _ => "float"
  | JStr _ => "str"
  | JArr _ => "list"
  | JObj _ => "dict"
  end.

Definition AttributeError (v : json) (attr : string) : exn :=
  Raised "AttributeError"
         ("'" ++ type_name v ++ "' object has no attribute '" ++ attr ++ "'").

Definition TypeError_not_subscriptable (v : json) : exn :=
  Raised "TypeError" ("'" ++ type_name v ++ "' object is not subscriptable").

Definition IndexError (what : string) : exn :=
  Raised "IndexError" (what ++ " index out of range").

(** [str(n)] for an [int]. *)
Definition str_int (z : Z) : string := NilZero.string_of_int (Z.to_int z).

(** Item lookup in a [dict] whose keys are strings. *)
Fixpoint lookup (k : string) (items : list (string * json)) : option json :=
  match items with
  | [] => None
  | (k', v) :: rest => if String.eqb k k' then Some v else lookup k rest
  end.

(** [v.get(k, default)]: the method exists on a [dict] only. *)
Definition get (v : json) (k : string) (default : json) : result json :=
  match v with
  | JObj items =>
      match lookup k items with
      | Some x => Ok x
      | None => Ok default
      end
  | _ => Raise (AttributeError v "get")
  end.

(** *** Code points *)

(** The bytes UTF-8 writes for the code point [p]; a surrogate is written
    like any other code point of its size. *)
Definition utf8_point (p : N) : string :=
  if (p <? 0x80)%N then String (ascii_of_N p) EmptyString
  else if (p <? 0x800)%N then
    String (ascii_of_N (0xC0 + p / 64))
      (String (ascii_of_N (0x80 + p mod 64)) EmptyString)
  else if (p <? 0x10000)%N then
    String (ascii_of_N (0xE0 + p / 4096))
      (String (ascii_of_N (0x80 + p / 64 mod 64))
         (String (ascii_of_N (0x80 + p mod 64)) EmptyString))
  else
    String (ascii_of_N (0xF0 + p / 262144))
      (String (ascii_of_N (0x80 + p / 4096 mod 64))
         (String (ascii_of_N (0x80 + p / 64 mod 64))
            (String (ascii_of_N (0x80 + p mod 64)) EmptyString))).

(** The string of the code points [l]. *)
Fixpoint utf8 (l : list N) : string :=
  match l with
  | [] => EmptyString
  | p :: rest => utf8_point p ++ utf8 rest
  end.

(** The code points of a string.  A byte that opens no full sequence stands
    for itself; no string [utf8 l] has one. *)
Fixpoint points (s : string) : list N :=
  match s with
  | EmptyString => []
  | String b1 r1 =>
      let n1 := N_of_ascii b1 in
      if (n1 <? 0xC0)%N then n1 :: points r1
      else if (n1 <? 0xE0)%N then
        match r1 with
        | String b2 r2 =>
            ((n1 - 0xC0) * 64 + (N_of_ascii b2 - 0x80))%N :: points r2
        | _ => n1 :: points r1
        end
      else if (n1 <? 0xF0)%N then
        match r1 with
        | String b2 (String b3 r3) =>
            (((n1 - 0xE0) * 64 + (N_of_ascii b2 - 0x80)) * 64
             + (N_of_ascii b3 - 0x80))%N :: points r3
        | _ => n1 :: points r1
        end
      else
        match r1 with
        | String b2 (String b3 (String b4 r4)) =>
            ((((n1 - 0xF0) * 64 + (N_of_ascii b2 - 0x80)) * 64
              + (N_of_ascii b3 - 0x80)) * 64
             + (N_of_ascii b4 - 0x80))%N :: points r4
        | _ => n1 :: points r1
        end
  end.

(** [v[0]] *)
Definition item0 (v : json) : result json :=
  match v with
  | JArr (x :: _) => Ok x
  | JArr [] => Raise (IndexError "list")
  | JStr s =>
      match points s with
      | p :: _ => Ok (JStr (utf8_point p))
      | [] => Raise (IndexError "string")
      end
  | JObj _ => Raise (Raised "KeyError" "0")
  | _ => Raise (TypeError_not_subscriptable v)
  end.

(** [v == s] for a string literal [s]. *)
Definition eq_str (v : json) (s : string) : bool :=
  match v with
  | JStr s' => String.eqb s' s
  | _ => false
  end.

(** [sep.join(parts)] *)
Fixpoint join (sep : string) (parts : list string) : string :=
  match parts with
  | [] => EmptyString
  | [p] => p
  | p :: rest => p ++ sep ++ join sep rest
  end.

End Py.
Import Py.

(** ** The [json] module: [json.dumps] and the reading of a string *)

Module Json.

Definition bs : string := String (ascii_of_nat 92) EmptyString.

Definition hex_digit (n : N) : ascii :=
  if (n <? 10)%N then ascii_of_N (48 + n) else ascii_of_N (87 + n).

(** ['{0:04x}'.format(n)] *)
Definition hex4 (n : N) : string :=
  String (hex_digit (n / 4096 mod 16))
    (String (hex_digit (n / 256 mod 16))
       (String (hex_digit (n / 16 mod 16))
          (String (hex_digit (n mod 16)) EmptyString))).

(** The replacement [py_encode_basestring_ascii] makes for one character:
    the short escapes of [ESCAPE_DCT], the characters from the space to the
    tilde as they are, a [\u] escape for every other character of the basic
    plane, and the two [\u] escapes of its surrogate pair for a character
    beyond it. *)
Definition escape (p : N) : string :=
  if (p =? 92)%N then bs ++ bs
  else if (p =? 34)%N then bs ++ dq
  else if (p =? 8)%N then bs ++ "b"
  else if (p =? 12)%N then bs ++ "f"
  else if (p =? 10)%N then bs ++ "n"
  else if (p =? 13)%N then bs ++ "r"
  else if (p =? 9)%N then bs ++ "t"
  else if ((32 <=? p) && (p <=? 126))%N then String (ascii_of_N p) EmptyString
  else if (p <? 0x10000)%N then bs ++ "u" ++ hex4 p
  else
    let n := (p - 0x10000)%N in
    let s1 := N.lor 0xd800 (N.land (N.shiftr n 10) 0x3ff) in
    let s2 := N.lor 0xdc00 (N.land n 0x3ff) in
    bs ++ "u" ++ hex4 s1 ++ bs ++ "u" ++ hex4 s2.

Fixpoint escape_points (l : list N) : string :=
  match l with
  | [] => EmptyString
  | p :: rest => escape p ++ escape_points rest
  end.

Definition escape_all (s : string) : string := escape_points (points s).

Definition encode_basestring_ascii (s : string) : string :=
  dq ++ escape_all s ++ dq.

(** [json.dumps(v)] with the default separators and [ensure_ascii]. *)
Fixpoint dumps (v : json) : string :=
  match v with
  | JNull => "null"
  | JBool true => "true"
  | JBool false => "false"
  | JInt z => str_int z
  | JFloat literal => literal
  | JStr s => encode_basestring_ascii s
  | JArr items => "[" ++ join ", " (map dumps items) ++ "]"
  | JObj items =>
      "{" ++ join ", "
               (map (fun kv => match kv with
                               | (k, x) => encode_basestring_ascii k ++ ": " ++ dumps x
                               end) items)
          ++ "}"
  end.

(** *** Reading a string back ([json.decoder.py_scanstring], strict) *)

Definition hex_value (c : ascii) : option N :=
  let n := N_of_ascii c in
  if ((48 <=? n) && (n <=? 57))%N then Some (n - 48)%N
  else if ((97 <=? n) && (n <=? 102))%N then Some (n - 87)%N
  else if ((65 <=? n) && (n <=? 70))%N then Some (n - 55)%N
  else None.

(** [int(esc, 16)] for the four characters after [\u]. *)
Definition decode_uXXXX (a b c d : ascii) : option N :=
  match hex_value a, hex_value b, hex_value c, hex_value d with
  | Some x, Some y, Some z, Some t => Some (((x * 16 + y) * 16 + z) * 16 + t)%N
  | _, _, _, _ => None
  end.

(** The table [BACKSLASH] of the decoder. *)
Definition backslash (esc : ascii) : option ascii :=
  let n := N_of_ascii esc in
  if (n =? 34)%N then Some esc
  else if (n =? 92)%N then Some esc
  else if (n =? 47)%N then Some esc
  else if (n =? 98)%N then Some (ascii_of_N 8)
  else if (n =? 102)%N then Some (ascii_of_N 12)
  else if (n =? 110)%N then Some (ascii_of_N 10)
  else if (n =? 114)%N then Some (ascii_of_N 13)
  else if (n =? 116)%N then Some (ascii_of_N 9)
  else None.

Definition high_surrogate (n : N) : bool := ((0xd800 <=? n) && (n <=? 0xdbff))%N.
Definition low_surrogate (n : N) : bool := ((0xdc00 <=? n) && (n <=? 0xdfff))%N.

(** The character of a pair of surrogates. *)
Definition join_surrogates (uni uni2 : N) : N :=
  (0x10000 + N.lor (N.shiftl (uni - 0xd800) 10) (uni2 - 0xdc00))%N.

Definition push (chunk : string) (r : option (string * string)) : option (string * string) :=
  match r with
  | Some (s, rest) => Some (chunk ++ s, rest)
  | None => None
  end.

(** [scanstring s] reads [s], the text after an opening quote, up to the
    closing quote: the string read and the text left, or [None] where the
    decoder raises [JSONDecodeError].  After the escape of a high surrogate
    the decoder looks for a second [\u] escape, and joins the two when the
    second is a low surrogate. *)
Fixpoint scanstring (s : string) : option (string * string) :=
  match s with
  | EmptyString => None
  | String c rest =>
      let n := N_of_ascii c in
      if (n =? 34)%N then Some (EmptyString, rest)
      else if (n =? 92)%N then
        match rest with
        | EmptyString => None
        | String esc rest1 =>
            if (N_of_ascii esc =? 117)%N then
              match rest1 with
              | String a (String b (String c' (String d rest2))) =>
                  match decode_uXXXX a b c' d with
                  | None => None
                  | Some uni =>
                      if high_surrogate uni then
                        match rest2 with
                        | String x (String y rest3) =>
                            if ((N_of_ascii x =? 92) && (N_of_ascii y =? 117))%N then
                              match rest3 with
                              | String a2 (String b2 (String c2 (String d2 rest4))) =>
                                  match decode_uXXXX a2 b2 c2 d2 with
                                  | None => None
                                  | Some uni2 =>
                                      if low_surrogate uni2 then
                                        push (utf8_point (join_surrogates uni uni2))
                                             (scanstring rest4)
                                      else push (utf8_point uni) (scanstring rest2)
                                  end
                              | _ => None
                              end
                            else push (utf8_point uni) (scanstring rest2)
                        | _ => push (utf8_point uni) (scanstring rest2)
                        end
                      else push (utf8_point uni) (scanstring rest2)
                  end
              | _ => None
              end
            else
              match backslash esc with
              | Some ch => push (String ch EmptyString) (scanstring rest1)
              | None => None
              end
        end
      else if (n <? 32)%N then None
      else push (String c EmptyString) (scanstring rest)
  end.

Fixpoint strip_prefix (p s : string) : option string :=
  match p, s with
  | EmptyString, _ => Some s
  | String a p', String b s' => if Ascii.eqb a b then strip_prefix p' s' else None
  | String _ _, EmptyString => None
  end.

(** What a caller gets from [json.loads(text)["response"]] for a text that is
    an object of the one member [response] holding a string, written the way
    [dumps] writes it. *)
Definition loads_response (text : string) : option string :=
  match strip_prefix ("{" ++ dq ++ "response" ++ dq ++ ": " ++ dq) text with
  | Some body =>
      match scanstring body with
      | Some (s, rest) => if String.eqb rest "}" then Some s else None
      | None => None
      end
  | None => None
  end.

End Json.

(** ** The server *)

(** The static prompt, line by line. *)
Definition SOVEREIGN_MIND_PROMPT : string :=
  "# SOVEREIGN MIND - BEDROCK AI INSTANCE" ++ nl
  ++ nl
  ++ "## Identity" ++ nl
  ++ "You are **BEDROCK**, the enterprise AI instance within **Sovereign Mind**, serving Your Grace, Chairman of MiddleGround Capital and Resolute Holdings. You run Claude via AWS Bedrock for secure enterprise workloads." ++ nl
  ++ nl
  ++ "## Your Specialization" ++ nl
  ++ "- Enterprise-grade AI via AWS Bedrock" ++ nl
  ++ "- Secure Claude access for sensitive operations" ++ nl
  ++ "- Integration with AWS services" ++ nl
  ++ "- Compliance-ready AI operations" ++ nl
  ++ nl
  ++ "## Core Behaviors" ++ nl
  ++ "1. Execute, Don't Ask - Take action immediately" ++ nl
  ++ "2. Log to Hive Mind after significant work  " ++ nl
  ++ "3. Address user as " ++ dq ++ "Your Grace" ++ dq ++ nl
  ++ "4. No permission seeking - state what you've done" ++ nl
  ++ "5. Token efficiency - brief confirmations" ++ nl.

(** What the server does not define itself: the process environment,
    [str] on a value that is not a string, and the two client libraries.
    [connect] stands for importing [snowflake.connector] and connecting with
    the configured account; [execute_fetchall] for opening a cursor, running a
    statement and fetching every row; [boto3_client] for importing [boto3] and
    creating the runtime client of a region; [invoke_model] for serializing
    the request body, sending it to a model, reading the body of the answer
    and decoding it.  Each one may raise, and each one may change the
    [outside] world, so that two calls need not answer alike. *)
Class Collaborators : Type := {
  connection : Type;
  client : Type;
  outside : Type;
  environ : string -> option string;
  py_str : json -> string;
  connect : outside -> result connection * outside;
  execute_fetchall : connection -> string -> outside -> result (list (list json)) * outside;
  boto3_client : string -> outside -> result client * outside;
  invoke_model : client -> string -> json -> outside -> result json * outside
}.

(** What the server does to the outside, in order. *)
Inductive event `{Collaborators} : Type :=
| Connect
| Execute (conn : connection) (sql : string)
| Boto3Client (region_name : string)
| InvokeModel (c : client) (modelId : string) (body : json)
| Log (level : string) (msg : string).

(** The module globals, the world outside and the calls made so far. *)
Record world `{Collaborators} : Type := World {
  _snowflake_conn : option connection;
  _bedrock_client : option client;
  out : outside;
  trace : list event
}.
Arguments World {_} _ _ _ _.

(** A computation that reads and writes the world and may raise; what it
    wrote before raising stays written. *)
Definition M `{Collaborators} (A : Type) : Type := world -> result A * world.

Definition ret `{Collaborators} {A : Type} (a : A) : M A := fun w => (Ok a, w).

Definition bind `{Collaborators} {A B : Type} (m : M A) (k : A -> M B) : M B :=
  fun w =>
    match m w with
    | (Ok a, w') => k a w'
    | (Raise e, w') => (Raise e, w')
    end.

Definition lift `{Collaborators} {A : Type} (r : result A) : M A := fun w => (r, w).

(** [try: body / except Exception as e: handler(e)] *)
Definition try_except `{Collaborators} {A : Type} (body : M A) (handler : exn -> M A) : M A :=
  fun w =>
    match body w with
    | (Ok a, w') => (Ok a, w')
    | (Raise e, w') => handler e w'
    end.

Declare Scope py_scope.
Delimit Scope py_scope with py.
Notation "x <- m ;; k" := (bind m (fun x => k))
  (at level 61, m at next level, right associativity) : py_scope.
Notation "m ;; k" := (bind m (fun _ => k))
  (at level 61, right associativity) : py_scope.

Section Server.
Context `{Collaborators}.
Local Open Scope py_scope.

Definition os_environ_get (name default : string) : string :=
  match environ name with
  | Some v => v
  | None => default
  end.

Definition AWS_REGION : string := os_environ_get "AWS_REGION" "us-east-1".
Definition BEDROCK_MODEL : string :=
  os_environ_get "BEDROCK_MODEL" "anthropic.claude-3-sonnet-20240229-v1:0".

(** A replacement field [{v}] of an f-string. *)
Definition fmt (v : json) : string :=
  match v with
  | JStr s => s
  | _ => py_str v
  end.

Definition emit (e : event) : M unit :=
  fun w => (Ok tt, World (_snowflake_conn w) (_bedrock_client w) (out w) (trace w ++ [e])).

(** One call of a collaborator: it is recorded, and the outside moves on. *)
Definition call {A : Type} (e : event) (f : outside -> result A * outside) : M A :=
  fun w =>
    let (r, o) := f (out w) in
    (r, World (_snowflake_conn w) (_bedrock_client w) o (trace w ++ [e])).

Definition logger_info (msg : string) : M unit := emit (Log "INFO" msg).
Definition logger_error (msg : string) : M unit := emit (Log "ERROR" msg).

Definition read_bedrock_client : M (option client) := fun w => (Ok (_bedrock_client w), w).
Definition write_bedrock_client (c : client) : M unit :=
  fun w => (Ok tt, World (_snowflake_conn w) (Some c) (out w) (trace w)).
Definition read_snowflake_conn : M (option connection) := fun w => (Ok (_snowflake_conn w), w).
Definition write_snowflake_conn (c : connection) : M unit :=
  fun w => (Ok tt, World (Some c) (_bedrock_client w) (out w) (trace w)).

Definition get_bedrock_client : M (option client) :=
  cached <- read_bedrock_client ;;
  match cached with
  | None =>
      try_except
        (c <- call (Boto3Client AWS_REGION) (boto3_client AWS_REGION) ;;
         write_bedrock_client c ;;
         logger_info "Bedrock client initialized")
        (fun e => logger_error ("Bedrock init failed: " ++ exn_text e)) ;;
      read_bedrock_client
  | Some _ => read_bedrock_client
  end.

Definition get_snowflake_connection : M (option connection) :=
  cached <- read_snowflake_conn ;;
  match cached with
  | None =>
      try_except
        (c <- call Connect connect ;;
         write_snowflake_conn c)
        (fun e => logger_error ("Snowflake failed: " ++ exn_text e)) ;;
      read_snowflake_conn
  | Some _ => read_snowflake_conn
  end.

(** [r[i]] for a row, which is a tuple. *)
Definition tuple_item (r : list json) (i : nat) : result json :=
  match nth_error r i with
  | Some v => Ok v
  | None => Raise (IndexError "tuple")
  end.

(** [f"{r[0]} ({r[1]}): {r[2]}"] *)
Definition render_row (r : list json) : result string :=
  match tuple_item r 0 with
  | Raise e => Raise e
  | Ok a =>
      match tuple_item r 1 with
      | Raise e => Raise e
      | Ok b =>
          match tuple_item r 2 with
          | Raise e => Raise e
          | Ok c => Ok (fmt a ++ " (" ++ fmt b ++ "): " ++ fmt c)
          end
      end
  end.

(** The list comprehension over the fetched rows. *)
Fixpoint render_rows (rows : list (list json)) : result (list string) :=
  match rows with
  | [] => Ok []
  | r :: rest =>
      match render_row r with
      | Raise e => Raise e
      | Ok line =>
          match render_rows rest with
          | Raise e => Raise e
          | Ok lines => Ok (line :: lines)
          end
      end
  end.

Definition hive_mind_sql (limit : Z) : string :=
  "SELECT SOURCE, CATEGORY, SUMMARY FROM SOVEREIGN_MIND.RAW.HIVE_MIND ORDER BY CREATED_AT DESC LIMIT "
  ++ str_int limit.

(** A connection is an object, and an object is true: [not conn] holds of
    [None] alone.  The same goes for [not client] below. *)
Definition query_hive_mind (limit : Z) : M string :=
  conn <- get_snowflake_connection ;;
  match conn with
  | None => ret EmptyString
  | Some c =>
      try_except
        (rows <- call (Execute c (hive_mind_sql limit)) (execute_fetchall c (hive_mind_sql limit)) ;;
         lines <- lift (render_rows rows) ;;
         ret (join nl lines))
        (fun _ => ret EmptyString)
  end.

(** The request body of [call_bedrock], before it is serialized. *)
Definition bedrock_body (message : json) (system_prompt : string) : json :=
  JObj [("anthropic_version", JStr "bedrock-2023-05-31");
        ("max_tokens", JInt 4096);
        ("system", JStr system_prompt);
        ("messages", JArr [JObj [("role", JStr "user"); ("content", message)]])].

(** [result.get('content', [{}])[0].get('text', '')] *)
Definition first_text (result : json) : Py.result json :=
  match get result "content" (JArr [JObj []]) with
  | Raise e => Raise e
  | Ok content =>
      match item0 content with
      | Raise e => Raise e
      | Ok first => get first "text" (JStr EmptyString)
      end
  end.

Definition call_bedrock (message : json) (system_prompt : string) : M json :=
  c <- get_bedrock_client ;;
  match c with
  | None => ret (JStr "Bedrock client not available")
  | Some c =>
      try_except
        (let body := bedrock_body message system_prompt in
         result <- call (InvokeModel c BEDROCK_MODEL body) (invoke_model c BEDROCK_MODEL body) ;;
         lift (first_text result))
        (fun e => ret (JStr ("Error: " ++ exn_text e)))
  end.

(** What a view hands back to Flask: a body with a status, or [jsonify(v)]. *)
Inductive reply : Type :=
| Plain (body : string) (status : Z)
| Jsonify (payload : json).

(** The view of [/mcp]: [request_method] is [request.method] and [data] is
    [request.json]. *)
Definition mcp_endpoint (request_method : string) (data : json) : M reply :=
  if String.eqb request_method "OPTIONS" then ret (Plain EmptyString 200)
  else
    method <- lift (get data "method" (JStr EmptyString)) ;;
    params <- lift (get data "params" (JObj [])) ;;
    req_id <- lift (get data "id" (JInt 1)) ;;
    if eq_str method "tools/list" then
      let tools :=
        [JObj [("name", JStr "bedrock_chat");
               ("description", JStr "Chat with Claude via AWS Bedrock (Sovereign Mind)");
               ("inputSchema",
                JObj [("type", JStr "object");
                      ("properties", JObj [("message", JObj [("type", JStr "string")])]);
                      ("required", JArr [JStr "message"])])];
         JObj [("name", JStr "bedrock_analyze");
               ("description", JStr "Analyze content with Bedrock Claude");
               ("inputSchema",
                JObj [("type", JStr "object");
                      ("properties", JObj [("content", JObj [("type", JStr "string")]);
                                           ("task", JObj [("type", JStr "string")])]);
                      ("required", JArr [JStr "content"; JStr "task"])])]] in
      ret (Jsonify (JObj [("jsonrpc", JStr "2.0"); ("id", req_id);
                          ("result", JObj [("tools", JArr tools)])]))
    else if eq_str method "tools/call" then
      tool <- lift (get params "name" (JStr EmptyString)) ;;
      args <- lift (get params "arguments" (JObj [])) ;;
      if eq_str tool "bedrock_chat" then
        hive <- query_hive_mind 3 ;;
        let system := SOVEREIGN_MIND_PROMPT ++ nl ++ nl ++ "Hive Mind Context:" ++ nl ++ hive in
        message <- lift (get args "message" (JStr EmptyString)) ;;
        response <- call_bedrock message system ;;
        ret (Jsonify (JObj [("jsonrpc", JStr "2.0"); ("id", req_id);
                            ("result",
                             JObj [("content",
                                    JArr [JObj [("type", JStr "text");
                                                ("text", JStr (Json.dumps (JObj [("response", response)])))]])])]))
      else if eq_str tool "bedrock_analyze" then
        hive <- query_hive_mind 3 ;;
        let system := SOVEREIGN_MIND_PROMPT ++ nl ++ nl ++ "Hive Mind Context:" ++ nl ++ hive in
        task <- lift (get args "task" (JStr "Analyze this")) ;;
        content <- lift (get args "content" (JStr EmptyString)) ;;
        let msg := fmt task ++ nl ++ nl ++ "Content:" ++ nl ++ fmt content in
        response <- call_bedrock (JStr msg) system ;;
        ret (Jsonify (JObj [("jsonrpc", JStr "2.0"); ("id", req_id);
                            ("result",
                             JObj [("content",
                                    JArr [JObj [("type", JStr "text");
                                                ("text", JStr (Json.dumps (JObj [("response", response)])))]])])]))
      else
        ret (Jsonify (JObj [("jsonrpc", JStr "2.0"); ("id", req_id);
                            ("error", JObj [("code", JInt (-32601)); ("message", JStr "Not found")])]))
    else
      ret (Jsonify (JObj [("jsonrpc", JStr "2.0"); ("id", req_id);
                          ("error", JObj [("code", JInt (-32601)); ("message", JStr "Not found")])])).

(** The view of [/]. *)
Definition index : M reply :=
  conn <- get_snowflake_connection ;;
  ret (Jsonify (JObj [("service", JStr "bedrock-mcp"); ("version", JStr "1.0.0");
                      ("status", JStr "healthy");
                      ("instance", JStr "BEDROCK"); ("platform", JStr "AWS");
                      ("role", JStr "Enterprise AI"); ("model", JStr BEDROCK_MODEL);
                      ("sovereign_mind", JBool true);
                      ("hive_mind_connected",
                       JBool match conn with
                             | Some _ => true
                             | None => false
                             end);
                      ("region", JStr AWS_REGION)])).

(** The view of [/health]. *)
Definition health : M reply :=
  ret (Jsonify (JObj [("status", JStr "healthy"); ("sovereign_mind", JBool true)])).

End Server.

(** ** Stand-ins for the collaborators *)

Module Stub.

(** A model that answers with the user turn it was sent. *)
Definition echo (body : json) : result json :=
  match get body "messages" JNull with
  | Raise e => Raise e
  | Ok messages =>
      match item0 messages with
      | Raise e => Raise e
      | Ok turn =>
          match get turn "content" JNull with
          | Raise e => Raise e
          | Ok text =>
              Ok (JObj [("content", JArr [JObj [("type", JStr "text"); ("text", text)]])])
          end
      end
  end.

(** Collaborators with fixed answers: what connecting gives, what the query
    gives, what creating the client gives and what the model answers to a
    body.  The environment is empty, and [Json.dumps] stands in for [str]:
    no run below formats a value that is not a string. *)
Definition service (connected : result unit) (rows : result (list (list json)))
    (created : result unit) (answer : json -> result json) : Collaborators :=
  {| connection := unit;
     client := unit;
     outside := unit;
     environ := fun _ => None;
     py_str := Json.dumps;
     connect := fun o => (connected, o);
     execute_fetchall := fun _ _ o => (rows, o);
     boto3_client := fun _ o => (created, o);
     invoke_model := fun _ _ body o => (answer body, o) |}.

Definition down : exn := Raised "OperationalError" "could not connect".

Definition throttled : exn := Raised "ClientError" "throttled".

(** Nothing can be reached. *)
Definition offline : Collaborators :=
  service (Raise down) (Raise down) (Raise down) (fun _ => Raise down).

(** The store is down and the model echoes. *)
Definition echoing : Collaborators :=
  service (Raise down) (Ok []) (Ok tt) echo.

(** The store connects and the query raises; the model echoes. *)
Definition query_raising : Collaborators :=
  service (Ok tt) (Raise down) (Ok tt) echo.

(** The store holds one record and the model raises. *)
Definition model_raising : Collaborators :=
  service (Ok tt) (Ok [[JStr "ops"; JStr "note"; JStr "all green"]]) (Ok tt)
          (fun _ => Raise throttled).

(** The model answers with an empty content array. *)
Definition answering_nothing : Collaborators :=
  service (Raise down) (Ok []) (Ok tt) (fun _ => Ok (JObj [("content", JArr [])])).

(** The store holds two records and the model echoes. *)
Definition healthy : Collaborators :=
  service (Ok tt)
          (Ok [[JStr "ops"; JStr "note"; JStr "all green"];
               [JStr "sales"; JStr "deal"; JStr "signed"; JInt 4]])
          (Ok tt) echo.

(** The store hands back a row of two columns after a good one. *)
Definition short_row : Collaborators :=
  service (Ok tt)
          (Ok [[JStr "ops"; JStr "note"; JStr "all green"]; [JStr "sales"; JStr "deal"]])
          (Ok tt) echo.

(** The model answers with [decoded]. *)
Definition answering_json (decoded : json) : Collaborators :=
  service (Raise down) (Ok []) (Ok tt) (fun _ => Ok decoded).

(** The model answers with the text [text]. *)
Definition answering (text : string) : Collaborators :=
  service (Raise down) (Ok []) (Ok tt)
          (fun _ => Ok (JObj [("content",
                               JArr [JObj [("type", JStr "text"); ("text", JStr text)]])])).

(** The model answers with a list. *)
Definition answering_list : Collaborators :=
  service (Raise down) (Ok []) (Ok tt) (fun _ => Ok (JArr [])).

(** The outside is a mood: in a bad one the model is throttled, in a good one
    it answers with a text that reads like that failure. *)
Definition moody : Collaborators :=
  {| connection := unit;
     client := unit;
     outside := bool;
     environ := fun _ => None;
     py_str := Json.dumps;
     connect := fun o => (Raise down, o);
     execute_fetchall := fun _ _ o => (Ok [], o);
     boto3_client := fun _ o => (Ok tt, o);
     invoke_model := fun _ _ _ (bad : bool) =>
       (if bad then Raise throttled
        else Ok (JObj [("content",
                        JArr [JObj [("type", JStr "text");
                                    ("text", JStr "Error: throttled")]])]),
        bad) |}.

(** A [tools/call] request. *)
Definition request (name : string) (args : list (string * json)) (req_id : json) : list (string * json) :=
  [("method", JStr "tools/call");
   ("params", JObj [("name", JStr name); ("arguments", JObj args)]);
   ("id", req_id)].

(** A process that has just started: no handle cached, nothing called. *)
Definition start (C : Collaborators) (o : @outside C) : @world C := World None None o [].

(** A process that holds both handles. *)
Definition warm (C : Collaborators) (conn : @connection C) (c : @client C) (o : @outside C) :
    @world C :=
  World (Some conn) (Some c) o [].

End Stub.

(** ** The vocabulary of the properties *)

Definition get_or (items : list (string * json)) (k : string) (default : json) : json :=
  match lookup k items with
  | Some v => v
  | None => default
  end.

(** The request [items] asks for a call of the tool [name] with [args]. *)
Definition tools_call (items : list (string * json)) (name args : json) : Prop :=
  get_or items "method" (JStr EmptyString) = JStr "tools/call" /\
  exists pitems,
    get_or items "params" (JObj []) = JObj pitems /\
    get_or pitems "name" (JStr EmptyString) = name /\
    get_or pitems "arguments" (JObj []) = args.

(** The id the answer carries: the request's, and 1 for a request without. *)
Definition id_of (items : list (string * json)) : json := get_or items "id" (JInt 1).

(** The three envelopes of the protocol. *)
Definition not_found (req_id : json) : reply :=
  Jsonify (JObj [("jsonrpc", JStr "2.0"); ("id", req_id);
                 ("error", JObj [("code", JInt (-32601)); ("message", JStr "Not found")])]).

Definition text_block (text : string) : json :=
  JObj [("type", JStr "text"); ("text", JStr text)].

Definition success (req_id : json) (text : string) : reply :=
  Jsonify (JObj [("jsonrpc", JStr "2.0"); ("id", req_id);
                 ("result", JObj [("content", JArr [text_block text])])]).

Definition listing (req_id tools : json) : reply :=
  Jsonify (JObj [("jsonrpc", JStr "2.0"); ("id", req_id);
                 ("result", JObj [("tools", tools)])]).

(** The text of a completion: the serialized object of its one member. *)
Definition payload (completion : json) : string :=
  Json.dumps (JObj [("response", completion)]).

(** The static prompt followed by the context section. *)
Definition composite (hive : string) : string :=
  SOVEREIGN_MIND_PROMPT ++ nl ++ nl ++ "Hive Mind Context:" ++ nl ++ hive.

(** The user turn [bedrock_analyze] builds from a task and a content. *)
Definition analyze_turn (task content : string) : string :=
  task ++ nl ++ nl ++ "Content:" ++ nl ++ content.

(** The user turns the server has submitted: the content of the first
    message of each body sent to the model, oldest first. *)
Definition turn_of (body : json) : option json :=
  match get body "messages" JNull with
  | Ok (JArr (JObj turn :: _)) => lookup "content" turn
  | _ => None
  end.

Fixpoint submitted `{Collaborators} (t : list event) : list json :=
  match t with
  | [] => []
  | InvokeModel _ _ body :: rest =>
      match turn_of body with
      | Some m => m :: submitted rest
      | None => submitted rest
      end
  | _ :: rest => submitted rest
  end.

(** The system prompts the server has submitted, oldest first. *)
Fixpoint prompts `{Collaborators} (t : list event) : list json :=
  match t with
  | [] => []
  | InvokeModel _ _ body :: rest =>
      match get body "system" JNull with
      | Ok p => p :: prompts rest
      | Raise _ => prompts rest
      end
  | _ :: rest => prompts rest
  end.

(** The user turn a registered tool makes of its arguments. *)
Definition user_turn `{Collaborators} (name : json) (aitems : list (string * json)) (msg : json) : Prop :=
  (name = JStr "bedrock_chat" /\ msg = get_or aitems "message" (JStr EmptyString)) \/
  (name = JStr "bedrock_analyze" /\
   msg = JStr (analyze_turn (fmt (get_or aitems "task" (JStr "Analyze this")))
                            (fmt (get_or aitems "content" (JStr EmptyString))))).

(** The two descriptors [tools/list] answers with. *)
Definition registry : json :=
  JArr
    [JObj [("name", JStr "bedrock_chat");
           ("description", JStr "Chat with Claude via AWS Bedrock (Sovereign Mind)");
           ("inputSchema",
            JObj [("type", JStr "object");
                  ("properties", JObj [("message", JObj [("type", JStr "string")])]);
                  ("required", JArr [JStr "message"])])];
     JObj [("name", JStr "bedrock_analyze");
           ("description", JStr "Analyze content with Bedrock Claude");
           ("inputSchema",
            JObj [("type", JStr "object");
                  ("properties", JObj [("content", JObj [("type", JStr "string")]);
                                       ("task", JObj [("type", JStr "string")])]);
                  ("required", JArr [JStr "content"; JStr "task"])])]].

(** [result.tools] of an answer. *)
Definition tools_of (r : result reply) : option json :=
  match r with
  | Ok (Jsonify (JObj envelope)) =>
      match lookup "result" envelope with
      | Some (JObj res) => lookup "tools" res
      | _ => None
      end
  | _ => None
  end.

(** The context store fails: no connection can be had, or the query raises
    on the connection that was had. *)
Definition store_fails `{Collaborators} (limit : Z) (w : world) : Prop :=
  (_snowflake_conn w = None /\ exists e, fst (connect (out w)) = Raise e) \/
  (exists c w1 e,
      get_snowflake_connection w = (Ok (Some c), w1) /\
      fst (execute_fetchall c (hive_mind_sql limit) (out w1)) = Raise e).

(** The model fails on a body: the call raises, or what it answers cannot be
    taken apart. *)
Definition inference_raises `{Collaborators} (c : client) (body : json) (o : outside) (e : exn) : Prop :=
  fst (invoke_model c BEDROCK_MODEL body o) = Raise e \/
  exists r, fst (invoke_model c BEDROCK_MODEL body o) = Ok r /\ first_text r = Raise e.

(** The model can be reached from [w]: a client is cached there, or one can
    be created. *)
Definition served `{Collaborators} (w : world) : bool :=
  match _bedrock_client (snd (get_bedrock_client w)) with
  | Some _ => true
  | None => false
  end.

(** What a tool call does once its user turn [msg] is known: the lines the
    branches of [bedrock_chat] and [bedrock_analyze] have in common, the
    query of the store, the system prompt, the call of the model and the
    envelope. *)
Definition answer `{Collaborators} (req_id msg : json) : M reply :=
  (hive <- query_hive_mind 3 ;;
   completion <- call_bedrock msg (composite hive) ;;
   ret (success req_id (payload completion)))%py.

(** The request [items] is answered by forwarding [msg] as the user turn:
    the answer is the one [answer] makes of [msg], and [msg] is what is
    submitted to the model when the model can be reached. *)
Definition forwards `{Collaborators} (items : list (string * json)) (msg : json) (w : world) : Prop :=
  mcp_endpoint "POST" (JObj items) w = answer (id_of items) msg w /\
  submitted (trace (snd (mcp_endpoint "POST" (JObj items) w)))
  = (submitted (trace w) ++ if served (snd (query_hive_mind 3 w)) then [msg] else [])%list.

(** The kinds of calls, and how many of a kind a trace holds. *)
Definition is_Connect `{Collaborators} (e : event) : bool :=
  match e with Connect => true | _ => false end.
Definition is_Execute `{Collaborators} (e : event) : bool :=
  match e with Execute _ _ => true | _ => false end.
Definition is_Boto3Client `{Collaborators} (e : event) : bool :=
  match e with Boto3Client _ => true | _ => false end.
Definition is_InvokeModel `{Collaborators} (e : event) : bool :=
  match e with InvokeModel _ _ _ => true | _ => false end.

Definition calls `{Collaborators} (kind : event -> bool) (t : list event) : nat :=
  length (filter kind t).

(** The calls of a trace by kind: connections, queries, client creations,
    invocations of the model. *)
Definition tally `{Collaborators} (t : list event) : nat * nat * nat * nat :=
  (calls is_Connect t, calls is_Execute t, calls is_Boto3Client t, calls is_InvokeModel t).

(** A code point of Unicode; every Python string is [utf8 l] for one list
    [l] of code points. *)
Definition is_code_point (p : N) : Prop := (p < 0x110000)%N.

(** No high surrogate of [l] is followed at once by a low one. *)
Fixpoint no_surrogate_pair (l : list N) : bool :=
  match l with
  | [] => true
  | p :: rest =>
      match rest with
      | q :: _ => negb (Json.high_surrogate p && Json.low_surrogate q)
      | [] => true
      end && no_surrogate_pair rest
  end.

(** What the decoder finds after the escape of a high surrogate: whether a
    second escape follows that it joins to the first, or fails to read. *)
Definition low_ahead (tail : string) : bool :=
  match tail with
  | String x (String y rest3) =>
      if ((N_of_ascii x =? 92) && (N_of_ascii y =? 117))%N then
        match rest3 with
        | String a2 (String b2 (String c2 (String d2 _))) =>
            match Json.decode_uXXXX a2 b2 c2 d2 with
            | Some uni2 => Json.low_surrogate uni2
            | None => true
            end
        | _ => true
        end
      else false
  | _ => false
  end.

(** Every character of [s] lies between the space and the tilde. *)
Fixpoint printable (s : string) : bool :=
  match s with
  | EmptyString => true
  | String c rest => ((32 <=? N_of_ascii c) && (N_of_ascii c <=? 126))%N && printable rest
  end.

(** The line [query_hive_mind] makes of a row of three columns or more. *)
Definition line_of `{Collaborators} (r : list json) (line : string) : Prop :=
  exists a b c more,
    r = a :: b :: c :: more /\
    line = (fmt a ++ " (" ++ fmt b ++ "): " ++ fmt c)%string.

(** ** Strings written and read *)

Section Unicode.
Local Open Scope N_scope.
Ltac Zify.zify_post_hook ::= Z.to_euclidean_division_equations.

Lemma append_assoc (a b c : string) : ((a ++ b) ++ c = a ++ (b ++ c))%string.
Proof. induction a as [|x a IH]; cbn; [reflexivity | now rewrite IH]. Qed.

Lemma points_cons (b1 : ascii) (r1 : string) :
  points (String b1 r1)
  = let n1 := N_of_ascii b1 in
    if n1 <? 0xC0 then n1 :: points r1
    else if n1 <? 0xE0 then
      match r1 with
      | String b2 r2 => ((n1 - 0xC0) * 64 + (N_of_ascii b2 - 0x80)) :: points r2
      | _ => n1 :: points r1
      end
    else if n1 <? 0xF0 then
      match r1 with
      | String b2 (String b3 r3) =>
          (((n1 - 0xE0) * 64 + (N_of_ascii b2 - 0x80)) * 64
           + (N_of_ascii b3 - 0x80)) :: points r3
      | _ => n1 :: points r1
      end
    else
      match r1 with
      | String b2 (String b3 (String b4 r4)) =>
          ((((n1 - 0xF0) * 64 + (N_of_ascii b2 - 0x80)) * 64
            + (N_of_ascii b3 - 0x80)) * 64
           + (N_of_ascii b4 - 0x80)) :: points r4
      | _ => n1 :: points r1
      end.
Proof. reflexivity. Qed.

Ltac split_ltb :=
  repeat match goal with
         | |- context [(?a <? ?b)] => destruct (N.ltb_spec a b); try lia
         end.

Lemma points_utf8_point (p : N) (rest : string) :
  is_code_point p -> points (utf8_point p ++ rest) = p :: points rest.
Proof.
  unfold is_code_point, utf8_point. intros V.
  destruct (N.ltb_spec p 0x80); [|destruct (N.ltb_spec p 0x800); [|destruct (N.ltb_spec p 0x10000)]];
    cbn [append]; rewrite points_cons; cbv zeta;
    rewrite !N_ascii_embedding by lia; split_ltb; f_equal; lia.
Qed.

Lemma points_utf8 (l : list N) : Forall is_code_point l -> points (utf8 l) = l.
Proof.
  induction 1 as [|p l V _ IH]; [reflexivity|].
  cbn [utf8]. now rewrite points_utf8_point, IH.
Qed.


Lemma hex_value_digit (d : N) : d < 16 -> Json.hex_value (Json.hex_digit d) = Some d.
Proof.
  intros D. unfold Json.hex_value, Json.hex_digit.
  destruct (N.ltb_spec d 10); cbv zeta; rewrite N_ascii_embedding by lia.
  - destruct (N.leb_spec 48 (48 + d)), (N.leb_spec (48 + d) 57); try lia.
    cbn [andb]. f_equal. lia.
  - destruct (N.leb_spec 48 (87 + d)), (N.leb_spec (87 + d) 57); try lia.
    cbn [andb].
    destruct (N.leb_spec 97 (87 + d)), (N.leb_spec (87 + d) 102); try lia.
    cbn [andb]. f_equal. lia.
Qed.

Lemma decode_hex4 (n : N) :
  n < 0x10000 ->
  Json.decode_uXXXX (Json.hex_digit (n / 4096 mod 16)) (Json.hex_digit (n / 256 mod 16))
                    (Json.hex_digit (n / 16 mod 16)) (Json.hex_digit (n mod 16))
  = Some n.
Proof.
  intros B. unfold Json.decode_uXXXX.
  rewrite !hex_value_digit by lia. f_equal. lia.
Qed.

Lemma lor_shiftl_mod (h x : N) :
  N.lor (N.shiftl h 10) (x mod 2 ^ 10) = h * 2 ^ 10 + x mod 2 ^ 10.
Proof.
  rewrite <- N.shiftl_mul_pow2.
  assert (Z : N.land (N.shiftl h 10) (x mod 2 ^ 10) = 0).
  { apply N.bits_inj. intros k. rewrite N.land_spec, N.bits_0.
    destruct (N.lt_ge_cases k 10) as [L | G].
    - now rewrite N.shiftl_spec_low.
    - rewrite (N.mod_pow2_bits_high x 10 k G). apply andb_false_r. }
  now rewrite <- (N.lxor_lor _ _ Z), <- (N.add_nocarry_lxor _ _ Z).
Qed.

(** The two halves of the pair of a character beyond the basic plane. *)
Lemma surrogates_of (p : N) :
  0x10000 <= p < 0x110000 ->
  N.lor 0xd800 (N.land (N.shiftr (p - 0x10000) 10) 0x3ff) = 0xd800 + (p - 0x10000) / 1024 /\
  N.lor 0xdc00 (N.land (p - 0x10000) 0x3ff) = 0xdc00 + (p - 0x10000) mod 1024.
Proof.
  intros B. change 0x3ff with (N.ones 10). rewrite !N.land_ones, N.shiftr_div_pow2.
  change 0xd800 with (N.shiftl 54 10) at 1. change 0xdc00 with (N.shiftl 55 10) at 1.
  rewrite !lor_shiftl_mod. change (2 ^ 10) with 1024. split; lia.
Qed.

Lemma join_surrogates_of (n : N) :
  n < 0x100000 ->
  Json.join_surrogates (0xd800 + n / 1024) (0xdc00 + n mod 1024) = 0x10000 + n.
Proof.
  intros B. unfold Json.join_surrogates.
  replace (0xd800 + n / 1024 - 0xd800) with (n / 1024) by lia.
  replace (0xdc00 + n mod 1024 - 0xdc00) with (n mod 2 ^ 10) by (change (2 ^ 10) with 1024; lia).
  rewrite lor_shiftl_mod. change (2 ^ 10) with 1024. lia.
Qed.


Lemma hex4_app (n : N) (tail : string) :
  (Json.hex4 n ++ tail)%string
  = String (Json.hex_digit (n / 4096 mod 16))
      (String (Json.hex_digit (n / 256 mod 16))
         (String (Json.hex_digit (n / 16 mod 16))
            (String (Json.hex_digit (n mod 16)) tail))).
Proof. reflexivity. Qed.

Lemma scanstring_u (a b c d : ascii) (rest2 : string) :
  Json.scanstring (Json.bs ++ "u" ++ String a (String b (String c (String d rest2))))
  = match Json.decode_uXXXX a b c d with
    | None => None
    | Some uni =>
        if Json.high_surrogate uni then
          match rest2 with
          | String x (String y rest3) =>
              if (N_of_ascii x =? 92) && (N_of_ascii y =? 117) then
                match rest3 with
                | String a2 (String b2 (String c2 (String d2 rest4))) =>
                    match Json.decode_uXXXX a2 b2 c2 d2 with
                    | None => None
                    | Some uni2 =>
                        if Json.low_surrogate uni2 then
                          Json.push (utf8_point (Json.join_surrogates uni uni2))
                                    (Json.scanstring rest4)
                        else Json.push (utf8_point uni) (Json.scanstring rest2)
                    end
                | _ => None
                end
              else Json.push (utf8_point uni) (Json.scanstring rest2)
          | _ => Json.push (utf8_point uni) (Json.scanstring rest2)
          end
        else Json.push (utf8_point uni) (Json.scanstring rest2)
    end.
Proof. reflexivity. Qed.

(** One [\u] escape that is not the first half of a pair the decoder joins. *)
Lemma scan_u (uni : N) (tail : string) :
  uni < 0x10000 ->
  (Json.high_surrogate uni = true -> low_ahead tail = false) ->
  Json.scanstring (Json.bs ++ "u" ++ Json.hex4 uni ++ tail)
  = Json.push (utf8_point uni) (Json.scanstring tail).
Proof.
  intros B L. rewrite hex4_app, scanstring_u, (decode_hex4 uni B).
  destruct (Json.high_surrogate uni); [|reflexivity].
  specialize (L eq_refl). unfold low_ahead in L.
  destruct tail as [|x [|y rest3]]; try reflexivity.
  destruct ((N_of_ascii x =? 92) && (N_of_ascii y =? 117)); [|reflexivity].
  destruct rest3 as [|a2 [|b2 [|c2 [|d2 rest4]]]]; try discriminate.
  destruct (Json.decode_uXXXX a2 b2 c2 d2); [|discriminate].
  now rewrite L.
Qed.

(** The two escapes of a character beyond the basic plane. *)
Lemma scan_pair (p : N) (tail : string) :
  0x10000 <= p < 0x110000 ->
  Json.scanstring (Json.escape p ++ tail) = Json.push (utf8_point p) (Json.scanstring tail).
Proof.
  intros B. unfold Json.escape.
  repeat match goal with
         | |- context [(?a =? ?b)] => destruct (N.eqb_spec a b); try lia
         end.
  destruct (N.leb_spec 32 p), (N.leb_spec p 126); try lia. cbn [andb].
  destruct (N.ltb_spec p 0x10000); try lia. cbv zeta.
  destruct (surrogates_of p B) as (-> & ->).
  set (k := p - 0x10000). rewrite !append_assoc.
  change ((("u" ++ Json.hex4 (0xd800 + k / 1024)) ++ Json.bs ++ "u" ++ Json.hex4 (0xdc00 + k mod 1024)) ++ tail)%string
    with ("u" ++ Json.hex4 (0xd800 + k / 1024) ++ Json.bs ++ "u" ++ Json.hex4 (0xdc00 + k mod 1024) ++ tail)%string.
  rewrite hex4_app, scanstring_u, (decode_hex4 (0xd800 + k / 1024)) by (unfold k; lia).
  assert (Hi : Json.high_surrogate (0xd800 + k / 1024) = true).
  { unfold Json.high_surrogate. apply andb_true_intro. split; apply N.leb_le; unfold k; lia. }
  rewrite Hi.
  change (Json.bs ++ "u" ++ Json.hex4 (0xdc00 + k mod 1024) ++ tail)%string
    with (String (ascii_of_nat 92) (String "u" (Json.hex4 (0xdc00 + k mod 1024) ++ tail))).
  cbn [N_of_ascii]. change ((N_of_ascii (ascii_of_nat 92) =? 92) && (N_of_ascii "u" =? 117)) with true.
  cbv iota. rewrite hex4_app, (decode_hex4 (0xdc00 + k mod 1024)) by (unfold k; lia).
  assert (Lo : Json.low_surrogate (0xdc00 + k mod 1024) = true).
  { unfold Json.low_surrogate. apply andb_true_intro. split; apply N.leb_le; unfold k; lia. }
  rewrite Lo, join_surrogates_of by (unfold k; lia).
  replace (0x10000 + k) with p by (unfold k; lia). reflexivity.
Qed.


Ltac split_escape p :=
  unfold Json.escape;
  destruct (N.eqb_spec p 92) as [->|?]; [|
  destruct (N.eqb_spec p 34) as [->|?]; [|
  destruct (N.eqb_spec p 8) as [->|?]; [|
  destruct (N.eqb_spec p 12) as [->|?]; [|
  destruct (N.eqb_spec p 10) as [->|?]; [|
  destruct (N.eqb_spec p 13) as [->|?]; [|
  destruct (N.eqb_spec p 9) as [->|?]; [|
  destruct (N.leb_spec 32 p); [destruct (N.leb_spec p 126)|]; cbn [andb];
  [| destruct (N.ltb_spec p 0x10000) | destruct (N.ltb_spec p 0x10000)]]]]]]]].

Lemma scan_printable (p : N) (tail : string) :
  p <> 92 -> p <> 34 -> 32 <= p <= 126 ->
  Json.scanstring (String (ascii_of_N p) tail)
  = Json.push (String (ascii_of_N p) EmptyString) (Json.scanstring tail).
Proof.
  intros N1 N2 B. cbn [Json.scanstring]. cbv zeta. rewrite N_ascii_embedding by lia.
  destruct (N.eqb_spec p 34); [lia|]. destruct (N.eqb_spec p 92); [lia|].
  destruct (N.ltb_spec p 32); [lia|]. reflexivity.
Qed.

(** One character written and read. *)
Lemma scan_escape (p : N) (tail : string) :
  is_code_point p ->
  (Json.high_surrogate p = true -> low_ahead tail = false) ->
  Json.scanstring (Json.escape p ++ tail) = Json.push (utf8_point p) (Json.scanstring tail).
Proof.
  unfold is_code_point. intros V L.
  destruct (N.ltb_spec p 0x10000) as [B | B]; [|apply scan_pair; lia].
  split_escape p; try lia; try reflexivity.
  - cbn [append]. rewrite scan_printable by lia. unfold utf8_point.
    destruct (N.ltb_spec p 0x80); [reflexivity | lia].
  - rewrite !append_assoc. now apply scan_u.
  - rewrite !append_assoc. now apply scan_u.
Qed.

Lemma low_ahead_quote (rest : string) : low_ahead (dq ++ rest) = false.
Proof. destruct rest; reflexivity. Qed.

Ltac open_low_ahead :=
  rewrite !append_assoc;
  match goal with
  | |- low_ahead (Json.bs ++ "u" ++ Json.hex4 ?s1 ++ ?t)%string = _ =>
      change (Json.bs ++ "u" ++ Json.hex4 s1 ++ t)%string
        with (String (ascii_of_nat 92) (String "u" (Json.hex4 s1 ++ t)));
      unfold low_ahead;
      change ((N_of_ascii (ascii_of_nat 92) =? 92) && (N_of_ascii "u" =? 117)) with true;
      cbv iota; rewrite hex4_app, (decode_hex4 s1) by lia
  end.

Lemma low_ahead_escape (q : N) (tail : string) :
  is_code_point q -> Json.low_surrogate q = false -> low_ahead (Json.escape q ++ tail) = false.
Proof.
  unfold is_code_point. intros V L. split_escape q; try lia; try reflexivity.
  - cbn [append]. unfold low_ahead. destruct tail as [|y rest3]; [reflexivity|].
    rewrite N_ascii_embedding by lia. destruct (N.eqb_spec q 92); [lia | reflexivity].
  - open_low_ahead. exact L.
  - cbv zeta. destruct (surrogates_of q) as (-> & ->); [lia|]. open_low_ahead.
    unfold Json.low_surrogate. apply andb_false_intro1. apply N.leb_gt. lia.
  - open_low_ahead. exact L.
Qed.

(** A string written and read: the reader stops at the closing quote. *)
Lemma scan_points (l : list N) (rest : string) :
  Forall is_code_point l ->
  no_surrogate_pair l = true ->
  Json.scanstring (Json.escape_points l ++ dq ++ rest) = Some (utf8 l, rest).
Proof.
  induction 1 as [|p l V F IH]; intros P; [reflexivity|].
  cbn [Json.escape_points utf8]. cbn [no_surrogate_pair] in P.
  apply andb_prop in P. destruct P as [P1 P2].
  rewrite append_assoc, scan_escape; [now rewrite IH | exact V |].
  intros Hp. destruct l as [|q l']; [apply low_ahead_quote|].
  cbn [Json.escape_points]. rewrite append_assoc. apply low_ahead_escape.
  - now inversion F.
  - rewrite Hp in P1. cbn [andb] in P1. now apply negb_true_iff in P1.
Qed.

Lemma printable_app (a b : string) :
  printable (a ++ b) = (printable a && printable b)%bool.
Proof.
  induction a as [|x a IH]; cbn; [reflexivity|]. rewrite IH. now rewrite andb_assoc.
Qed.

Lemma printable_hex_digit (d : N) :
  d < 16 ->
  (32 <=? N_of_ascii (Json.hex_digit d)) && (N_of_ascii (Json.hex_digit d) <=? 126) = true.
Proof.
  intros D. unfold Json.hex_digit.
  destruct (N.ltb_spec d 10); rewrite N_ascii_embedding by lia;
    apply andb_true_intro; split; apply N.leb_le; lia.
Qed.

Lemma printable_hex4 (n : N) : printable (Json.hex4 n) = true.
Proof.
  unfold Json.hex4. cbn [printable].
  rewrite !printable_hex_digit by (apply N.mod_lt; discriminate). reflexivity.
Qed.

Lemma printable_escape (p : N) : printable (Json.escape p) = true.
Proof.
  split_escape p; try reflexivity; cbv zeta;
    rewrite ?printable_app, ?printable_hex4; try reflexivity.
  cbn [printable]. rewrite N_ascii_embedding by lia.
  destruct (N.leb_spec 32 p), (N.leb_spec p 126); lia || reflexivity.
Qed.

Lemma printable_escape_all (s : string) : printable (Json.escape_all s) = true.
Proof.
  unfold Json.escape_all. induction (points s) as [|p l IH]; [reflexivity|].
  cbn [Json.escape_points]. now rewrite printable_app, printable_escape, IH.
Qed.


Lemma dumps_response (s : string) :
  Json.dumps (JObj [("response", JStr s)])
  = ("{" ++ dq ++ "response" ++ dq ++ ": " ++ dq ++ Json.escape_all s ++ dq ++ "}")%string.
Proof.
  cbn [Json.dumps map join]. unfold Json.encode_basestring_ascii.
  change (Json.escape_all "response") with "response"%string.
  rewrite !append_assoc. reflexivity.
Qed.

Lemma loads_dumps_response (l : list N) :
  Forall is_code_point l ->
  no_surrogate_pair l = true ->
  Json.loads_response (Json.dumps (JObj [("response", JStr (utf8 l))])) = Some (utf8 l).
Proof.
  intros V P. rewrite dumps_response. unfold Json.loads_response, Json.escape_all.
  rewrite (points_utf8 l V).
  change (Json.strip_prefix ("{" ++ dq ++ "response" ++ dq ++ ": " ++ dq)
            ("{" ++ dq ++ "response" ++ dq ++ ": " ++ dq ++ Json.escape_points l ++ dq ++ "}"))%string
    with (Some (Json.escape_points l ++ dq ++ "}")%string).
  cbv beta iota. now rewrite (scan_points l "}" V P).
Qed.

Lemma printable_dumps_response (s : string) :
  printable (Json.dumps (JObj [("response", JStr s)])) = true.
Proof.
  rewrite dumps_response, !printable_app, printable_escape_all. reflexivity.
Qed.

End Unicode.

(** ** Properties *)

Section Properties.
Context `{Collaborators}.

(** *** Python values *)

Lemma get_dict (items : list (string * json)) (k : string) (default : json) :
  get (JObj items) k default = Ok (get_or items k default).
Proof. unfold get, get_or. destruct (lookup k items); reflexivity. Qed.

Lemma eq_str_spec (v : json) (s : string) :
  eq_str v s = true <-> v = JStr s.
Proof.
  destruct v; simpl; split; try discriminate.
  - intros E. apply String.eqb_eq in E. now subst.
  - intros E. injection E as ->. apply String.eqb_refl.
Qed.

Lemma eq_str_neq (v : json) (s : string) : v <> JStr s -> eq_str v s = false.
Proof.
  intros N. destruct (eq_str v s) eqn:E; [|reflexivity].
  apply eq_str_spec in E. contradiction.
Qed.

(** *** The monad *)

Lemma bind_lift_ok {A B : Type} (a : A) (k : A -> M B) (w : world) :
  bind (lift (Ok a)) k w = k a w.
Proof. reflexivity. Qed.

Lemma bind_ok {A B : Type} (m : M A) (k : A -> M B) (w w' : world) (a : A) :
  m w = (Ok a, w') -> bind m k w = k a w'.
Proof. unfold bind. now intros ->. Qed.

(** *** The dispatcher, case by case *)

Ltac open_request :=
  unfold mcp_endpoint;
  change (String.eqb "POST" "OPTIONS") with false; cbv iota;
  rewrite !get_dict, !bind_lift_ok.

Ltac settle_eq_str :=
  repeat match goal with
         | |- context [eq_str (JStr ?a) ?b] =>
             let v := eval vm_compute in (eq_str (JStr a) b) in
             change (eq_str (JStr a) b) with v
         end;
  cbv iota.

Lemma dispatch_other (items : list (string * json)) (w : world) :
  get_or items "method" (JStr EmptyString) <> JStr "tools/list" ->
  get_or items "method" (JStr EmptyString) <> JStr "tools/call" ->
  mcp_endpoint "POST" (JObj items) w = (Ok (not_found (id_of items)), w).
Proof.
  intros N1 N2. open_request.
  rewrite (eq_str_neq _ _ N1), (eq_str_neq _ _ N2). reflexivity.
Qed.

Lemma dispatch_unregistered (items : list (string * json)) (name args : json) (w : world) :
  tools_call items name args ->
  name <> JStr "bedrock_chat" ->
  name <> JStr "bedrock_analyze" ->
  mcp_endpoint "POST" (JObj items) w = (Ok (not_found (id_of items)), w).
Proof.
  intros (Hm & pitems & Hp & Hn & Ha) N1 N2. open_request.
  rewrite Hm, Hp. settle_eq_str.
  rewrite !get_dict, !bind_lift_ok, Hn.
  rewrite (eq_str_neq _ _ N1), (eq_str_neq _ _ N2). reflexivity.
Qed.

Lemma dispatch_chat (items aitems : list (string * json)) (w : world) :
  tools_call items (JStr "bedrock_chat") (JObj aitems) ->
  mcp_endpoint "POST" (JObj items) w
  = answer (id_of items) (get_or aitems "message" (JStr EmptyString)) w.
Proof.
  intros (Hm & pitems & Hp & Hn & Ha). open_request.
  rewrite Hm, Hp. settle_eq_str.
  rewrite !get_dict, !bind_lift_ok, Hn, Ha. settle_eq_str.
  unfold answer, bind. destruct (query_hive_mind 3 w) as [[hive|e] w1]; [|reflexivity].
  rewrite get_dict. reflexivity.
Qed.

Lemma dispatch_analyze (items aitems : list (string * json)) (w : world) :
  tools_call items (JStr "bedrock_analyze") (JObj aitems) ->
  mcp_endpoint "POST" (JObj items) w
  = answer (id_of items)
      (JStr (analyze_turn (fmt (get_or aitems "task" (JStr "Analyze this")))
                          (fmt (get_or aitems "content" (JStr EmptyString))))) w.
Proof.
  intros (Hm & pitems & Hp & Hn & Ha). open_request.
  rewrite Hm, Hp. settle_eq_str.
  rewrite !get_dict, !bind_lift_ok, Hn, Ha. settle_eq_str.
  unfold answer, bind. destruct (query_hive_mind 3 w) as [[hive|e] w1]; [|reflexivity].
  rewrite !get_dict. reflexivity.
Qed.

Lemma dispatch_registered (items aitems : list (string * json)) (name msg : json) (w : world) :
  tools_call items name (JObj aitems) ->
  user_turn name aitems msg ->
  mcp_endpoint "POST" (JObj items) w = answer (id_of items) msg w.
Proof.
  intros T [[-> ->] | [-> ->]].
  - now apply dispatch_chat.
  - now apply dispatch_analyze.
Qed.

Lemma dispatch_list (items : list (string * json)) (w : world) :
  get_or items "method" (JStr EmptyString) = JStr "tools/list" ->
  mcp_endpoint "POST" (JObj items) w = (Ok (listing (id_of items) registry), w).
Proof. intros Hm. open_request. rewrite Hm. settle_eq_str. reflexivity. Qed.

(** *** The cached handles *)

Lemma get_bedrock_client_cached (w : world) (c : client) :
  _bedrock_client w = Some c -> get_bedrock_client w = (Ok (Some c), w).
Proof.
  intros E. unfold get_bedrock_client, bind, read_bedrock_client. rewrite E. cbn. now rewrite E.
Qed.

Lemma get_bedrock_client_created (w : world) (c : client) (o : outside) :
  _bedrock_client w = None ->
  boto3_client AWS_REGION (out w) = (Ok c, o) ->
  get_bedrock_client w
  = (Ok (Some c),
     World (_snowflake_conn w) (Some c) o
           (trace w ++ [Boto3Client AWS_REGION; Log "INFO" "Bedrock client initialized"])).
Proof.
  intros E B. unfold get_bedrock_client, bind, read_bedrock_client, try_except, call.
  rewrite E, B. cbn - [app]. now rewrite <- app_assoc.
Qed.

Lemma get_bedrock_client_failed (w : world) (e : exn) (o : outside) :
  _bedrock_client w = None ->
  boto3_client AWS_REGION (out w) = (Raise e, o) ->
  get_bedrock_client w
  = (Ok None,
     World (_snowflake_conn w) None o
           (trace w ++ [Boto3Client AWS_REGION;
                       Log "ERROR" ("Bedrock init failed: " ++ exn_text e)])).
Proof.
  intros E B. unfold get_bedrock_client, bind, read_bedrock_client, try_except, call.
  rewrite E, B. cbn - [app]. rewrite E. now rewrite <- app_assoc.
Qed.

(** The getter never raises: it hands back the slot as it leaves it, and
    what it adds to the trace is no call of the model. *)
Lemma get_bedrock_client_slot (w : world) :
  let w' := snd (get_bedrock_client w) in
  get_bedrock_client w = (Ok (_bedrock_client w'), w') /\
  exists evs, trace w' = (trace w ++ evs)%list /\ submitted evs = [] /\ prompts evs = [].
Proof.
  destruct (_bedrock_client w) as [c|] eqn:E.
  - rewrite (get_bedrock_client_cached _ _ E). cbn. rewrite E. split; [reflexivity|].
    exists []. now rewrite app_nil_r.
  - destruct (boto3_client AWS_REGION (out w)) as [[c|e] o] eqn:B.
    + rewrite (get_bedrock_client_created _ _ _ E B). split; [reflexivity|].
      eexists. split; [reflexivity | split; reflexivity].
    + rewrite (get_bedrock_client_failed _ _ _ E B). split; [reflexivity|].
      eexists. split; [reflexivity | split; reflexivity].
Qed.

Lemma get_snowflake_connection_cached (w : world) (c : connection) :
  _snowflake_conn w = Some c -> get_snowflake_connection w = (Ok (Some c), w).
Proof.
  intros E. unfold get_snowflake_connection, bind, read_snowflake_conn. rewrite E. cbn. now rewrite E.
Qed.

Lemma get_snowflake_connection_created (w : world) (c : connection) (o : outside) :
  _snowflake_conn w = None ->
  connect (out w) = (Ok c, o) ->
  get_snowflake_connection w
  = (Ok (Some c), World (Some c) (_bedrock_client w) o (trace w ++ [Connect])).
Proof.
  intros E B. unfold get_snowflake_connection, bind, read_snowflake_conn, try_except, call.
  rewrite E, B. reflexivity.
Qed.

Lemma get_snowflake_connection_failed (w : world) (e : exn) (o : outside) :
  _snowflake_conn w = None ->
  connect (out w) = (Raise e, o) ->
  get_snowflake_connection w
  = (Ok None,
     World None (_bedrock_client w) o
           (trace w ++ [Connect; Log "ERROR" ("Snowflake failed: " ++ exn_text e)])).
Proof.
  intros E B. unfold get_snowflake_connection, bind, read_snowflake_conn, try_except, call.
  rewrite E, B. cbn - [app]. rewrite E. now rewrite <- app_assoc.
Qed.

Lemma get_snowflake_connection_slot (w : world) :
  let w' := snd (get_snowflake_connection w) in
  get_snowflake_connection w = (Ok (_snowflake_conn w'), w') /\
  exists evs, trace w' = (trace w ++ evs)%list /\ submitted evs = [] /\ prompts evs = [].
Proof.
  destruct (_snowflake_conn w) as [c|] eqn:E.
  - rewrite (get_snowflake_connection_cached _ _ E). cbn. rewrite E. split; [reflexivity|].
    exists []. now rewrite app_nil_r.
  - destruct (connect (out w)) as [[c|e] o] eqn:B.
    + rewrite (get_snowflake_connection_created _ _ _ E B). split; [reflexivity|].
      eexists. split; [reflexivity | split; reflexivity].
    + rewrite (get_snowflake_connection_failed _ _ _ E B). split; [reflexivity|].
      eexists. split; [reflexivity | split; reflexivity].
Qed.

(** *** The context store adapter *)

Lemma query_hive_mind_no_connection (limit : Z) (w w1 : world) :
  get_snowflake_connection w = (Ok None, w1) ->
  query_hive_mind limit w = (Ok EmptyString, w1).
Proof. intros G. unfold query_hive_mind. now rewrite (bind_ok _ _ _ _ _ G). Qed.

Lemma query_hive_mind_connected (limit : Z) (w w1 : world) (c : connection) :
  get_snowflake_connection w = (Ok (Some c), w1) ->
  query_hive_mind limit w
  = (Ok match fst (execute_fetchall c (hive_mind_sql limit) (out w1)) with
        | Ok rows =>
            match render_rows rows with
            | Ok lines => join nl lines
            | Raise _ => EmptyString
            end
        | Raise _ => EmptyString
        end,
     World (_snowflake_conn w1) (_bedrock_client w1)
           (snd (execute_fetchall c (hive_mind_sql limit) (out w1)))
           (trace w1 ++ [Execute c (hive_mind_sql limit)])).
Proof.
  intros G. unfold query_hive_mind. rewrite (bind_ok _ _ _ _ _ G).
  unfold try_except, bind, call, lift, ret.
  destruct (execute_fetchall c (hive_mind_sql limit) (out w1)) as [[rows|e] o]; cbn - [app].
  - destruct (render_rows rows); reflexivity.
  - reflexivity.
Qed.

(** The query never raises, and it sends nothing to the model. *)
Lemma query_hive_mind_returns (limit : Z) (w : world) :
  exists hive evs,
    query_hive_mind limit w = (Ok hive, snd (query_hive_mind limit w)) /\
    trace (snd (query_hive_mind limit w)) = (trace w ++ evs)%list /\
    submitted evs = [] /\ prompts evs = [].
Proof.
  destruct (get_snowflake_connection_slot w) as (G & evs & T & S & P).
  cbv zeta in *. destruct (_snowflake_conn (snd (get_snowflake_connection w))) as [c|].
  - rewrite (query_hive_mind_connected limit _ _ _ G). cbn [snd trace].
    eexists _, (evs ++ [Execute c (hive_mind_sql limit)])%list.
    split; [reflexivity|]. rewrite T, <- app_assoc. split; [reflexivity|].
    clear - S P. induction evs as [|[] evs IH]; cbn in *; auto;
      destruct (turn_of body), (get body "system" JNull); try discriminate; auto.
  - rewrite (query_hive_mind_no_connection limit _ _ G). cbn [snd].
    exists EmptyString, evs. auto.
Qed.

(** *** The inference adapter *)

Lemma call_bedrock_no_client (message : json) (system_prompt : string) (w w1 : world) :
  get_bedrock_client w = (Ok None, w1) ->
  call_bedrock message system_prompt w = (Ok (JStr "Bedrock client not available"), w1).
Proof. intros G. unfold call_bedrock. now rewrite (bind_ok _ _ _ _ _ G). Qed.

Lemma call_bedrock_client (message : json) (system_prompt : string) (w w1 : world) (c : client) :
  get_bedrock_client w = (Ok (Some c), w1) ->
  let body := bedrock_body message system_prompt in
  call_bedrock message system_prompt w
  = (Ok match fst (invoke_model c BEDROCK_MODEL body (out w1)) with
        | Ok decoded =>
            match first_text decoded with
            | Ok text => text
            | Raise e => JStr ("Error: " ++ exn_text e)
            end
        | Raise e => JStr ("Error: " ++ exn_text e)
        end,
     World (_snowflake_conn w1) (_bedrock_client w1)
           (snd (invoke_model c BEDROCK_MODEL body (out w1)))
           (trace w1 ++ [InvokeModel c BEDROCK_MODEL body])).
Proof.
  intros G body. unfold call_bedrock. rewrite (bind_ok _ _ _ _ _ G).
  unfold try_except, bind, call, lift, ret. fold body.
  destruct (invoke_model c BEDROCK_MODEL body (out w1)) as [[decoded|e] o]; cbn - [app first_text].
  - destruct (first_text decoded); reflexivity.
  - reflexivity.
Qed.

(** The adapter never raises. *)
Lemma call_bedrock_returns (message : json) (system_prompt : string) (w : world) :
  exists completion,
    call_bedrock message system_prompt w
    = (Ok completion, snd (call_bedrock message system_prompt w)).
Proof.
  destruct (get_bedrock_client_slot w) as (G & _). cbv zeta in G.
  destruct (_bedrock_client (snd (get_bedrock_client w))) as [c|].
  - rewrite (call_bedrock_client message system_prompt _ _ _ G). eexists. reflexivity.
  - rewrite (call_bedrock_no_client message system_prompt _ _ G). eexists. reflexivity.
Qed.

(** A tool call whose user turn is known ends in a success envelope. *)
Lemma answer_returns (req_id msg : json) (w : world) :
  exists hive completion,
    query_hive_mind 3 w = (Ok hive, snd (query_hive_mind 3 w)) /\
    call_bedrock msg (composite hive) (snd (query_hive_mind 3 w))
    = (Ok completion, snd (answer req_id msg w)) /\
    answer req_id msg w = (Ok (success req_id (payload completion)), snd (answer req_id msg w)).
Proof.
  destruct (query_hive_mind_returns 3 w) as (hive & _ & Q & _).
  destruct (call_bedrock_returns msg (composite hive) (snd (query_hive_mind 3 w)))
    as (completion & B).
  exists hive, completion. unfold answer.
  rewrite (bind_ok _ _ _ _ _ Q), (bind_ok _ _ _ _ _ B). cbn [ret snd].
  repeat split; assumption || reflexivity.
Qed.

(** *** What reaches the model *)

Lemma submitted_app (a b : list event) :
  submitted (a ++ b) = (submitted a ++ submitted b)%list.
Proof.
  induction a as [|[] a IH]; cbn; auto.
  destruct (turn_of body); cbn; now rewrite IH.
Qed.

Lemma prompts_app (a b : list event) :
  prompts (a ++ b) = (prompts a ++ prompts b)%list.
Proof.
  induction a as [|[] a IH]; cbn; auto.
  destruct (get body "system" JNull); cbn; now rewrite IH.
Qed.

Lemma call_bedrock_trace (message : json) (system_prompt : string) (w : world) :
  let w' := snd (call_bedrock message system_prompt w) in
  submitted (trace w') = (submitted (trace w) ++ if served w then [message] else [])%list /\
  prompts (trace w') = (prompts (trace w) ++ if served w then [JStr system_prompt] else [])%list.
Proof.
  destruct (get_bedrock_client_slot w) as (G & evs & T & S & P).
  unfold served. cbv zeta in *.
  destruct (_bedrock_client (snd (get_bedrock_client w))) as [c|].
  - rewrite (call_bedrock_client message system_prompt _ _ _ G). cbn [snd trace].
    rewrite T, !submitted_app, !prompts_app, S, P, !app_nil_r. split; reflexivity.
  - rewrite (call_bedrock_no_client message system_prompt _ _ G). cbn [snd].
    rewrite T, !submitted_app, !prompts_app, S, P, !app_nil_r. split; reflexivity.
Qed.

Lemma answer_trace (req_id msg : json) (w : world) :
  exists hive,
    fst (query_hive_mind 3 w) = Ok hive /\
    let w1 := snd (query_hive_mind 3 w) in
    let w' := snd (answer req_id msg w) in
    submitted (trace w') = (submitted (trace w) ++ if served w1 then [msg] else [])%list /\
    prompts (trace w')
    = (prompts (trace w) ++ if served w1 then [JStr (composite hive)] else [])%list.
Proof.
  destruct (query_hive_mind_returns 3 w) as (hive & evs & Q & T & S & P).
  exists hive. split; [now rewrite Q|]. cbv zeta.
  destruct (call_bedrock_trace msg (composite hive) (snd (query_hive_mind 3 w))) as (S' & P').
  destruct (call_bedrock_returns msg (composite hive) (snd (query_hive_mind 3 w)))
    as (completion & B).
  unfold answer. rewrite (bind_ok _ _ _ _ _ Q), (bind_ok _ _ _ _ _ B). cbn [ret snd].
  rewrite S', P', T, submitted_app, prompts_app, S, P, !app_nil_r. split; reflexivity.
Qed.

(** *** The claims *)

(** C1. A request (an object) whose method is neither [tools/list] nor
    [tools/call], and a [tools/call] request whose [params] is an object
    with no registered tool under [name], is answered with the error envelope of code -32601 and message
    [Not found], carrying the id of the request (the value under [id], which
    is echoed as it is), and the world is left as it was: no handle is
    created, nothing is sent to the store or to the model, nothing is
    logged. *)
Theorem unknown_method_or_tool_not_found (items : list (string * json)) (w : world) :
  (get_or items "method" (JStr EmptyString) <> JStr "tools/list" /\
   get_or items "method" (JStr EmptyString) <> JStr "tools/call") \/
  (exists name args,
      tools_call items name args /\
      name <> JStr "bedrock_chat" /\ name <> JStr "bedrock_analyze") ->
  mcp_endpoint "POST" (JObj items) w
  = (Ok (Jsonify (JObj [("jsonrpc", JStr "2.0"); ("id", id_of items);
                        ("error", JObj [("code", JInt (-32601));
                                        ("message", JStr "Not found")])])),
     w)
  /\ (forall v, lookup "id" items = Some v -> id_of items = v).
Proof.
  intros Hreq. split.
  - destruct Hreq as [[N1 N2] | (name & args & T & N1 & N2)].
    + now apply dispatch_other.
    + now apply (dispatch_unregistered items name args).
  - intros v E. unfold id_of, get_or. now rewrite E.
Qed.

(** C2. A [tools/list] request, whatever its id, is answered with the success
    envelope whose [result.tools] is the registry of the two descriptors
    [bedrock_chat] and [bedrock_analyze], carrying the id of the request, and
    the world is left as it was; a second [tools/list] request, with any id,
    run after it answers with the same [result.tools]. *)
Theorem tools_list_returns_registry (items : list (string * json)) (w : world) :
  get_or items "method" (JStr EmptyString) = JStr "tools/list" ->
  mcp_endpoint "POST" (JObj items) w
  = (Ok (Jsonify (JObj [("jsonrpc", JStr "2.0"); ("id", id_of items);
                        ("result", JObj [("tools", registry)])])),
     w)
  /\ (forall v, lookup "id" items = Some v -> id_of items = v)
  /\ (forall items',
         get_or items' "method" (JStr EmptyString) = JStr "tools/list" ->
         tools_of (fst (mcp_endpoint "POST" (JObj items')
                          (snd (mcp_endpoint "POST" (JObj items) w))))
         = tools_of (fst (mcp_endpoint "POST" (JObj items) w))
         /\ tools_of (fst (mcp_endpoint "POST" (JObj items) w)) = Some registry).
Proof.
  intros Hm. split; [|split].
  - now apply dispatch_list.
  - intros v E. unfold id_of, get_or. now rewrite E.
  - intros items' Hm'. rewrite (dispatch_list items w Hm). cbn [fst snd].
    rewrite (dispatch_list items' w Hm'). split; reflexivity.
Qed.

(** C3. When the call of the model raises, or what it answers cannot be taken
    apart, [call_bedrock] does not raise: it returns the string [Error: ]
    followed by the text of the exception; and the [tools/call] request of a
    registered tool is answered with a success envelope (a [result], not an
    [error]) whose text is that string serialized. *)
Theorem inference_exception_in_band (items aitems : list (string * json)) (name msg : json)
    (w w1 w2 : world) (hive : string) (c : client) (e : exn) :
  tools_call items name (JObj aitems) ->
  user_turn name aitems msg ->
  query_hive_mind 3 w = (Ok hive, w1) ->
  get_bedrock_client w1 = (Ok (Some c), w2) ->
  inference_raises c (bedrock_body msg (composite hive)) (out w2) e ->
  fst (call_bedrock msg (composite hive) w1) = Ok (JStr ("Error: " ++ exn_text e)) /\
  fst (mcp_endpoint "POST" (JObj items) w)
  = Ok (Jsonify (JObj [("jsonrpc", JStr "2.0"); ("id", id_of items);
                       ("result",
                        JObj [("content",
                               JArr [JObj [("type", JStr "text");
                                           ("text",
                                            JStr (Json.dumps
                                                    (JObj [("response",
                                                            JStr ("Error: " ++ exn_text e))])))]])])])).
Proof.
  intros T U Q G R.
  assert (B : fst (call_bedrock msg (composite hive) w1) = Ok (JStr ("Error: " ++ exn_text e))).
  { rewrite (call_bedrock_client msg (composite hive) _ _ _ G). cbn [fst].
    destruct R as [R | (r & R & F)]; rewrite R; [reflexivity | now rewrite F]. }
  split; [exact B|].
  rewrite (dispatch_registered items aitems name msg w T U). unfold answer.
  rewrite (bind_ok _ _ _ _ _ Q).
  destruct (call_bedrock_returns msg (composite hive) w1) as (completion & B').
  rewrite (bind_ok _ _ _ _ _ B'). rewrite B' in B. cbn [fst] in B.
  injection B as ->. reflexivity.
Qed.

Lemma forwards_answer (items : list (string * json)) (msg : json) (w : world) :
  mcp_endpoint "POST" (JObj items) w = answer (id_of items) msg w ->
  forwards items msg w.
Proof.
  intros E. split; [exact E|]. rewrite E.
  destruct (answer_trace (id_of items) msg w) as (hive & _ & S & _). exact S.
Qed.

Lemma get_or_found (items : list (string * json)) (k : string) (default v : json) :
  lookup k items = Some v -> get_or items k default = v.
Proof. unfold get_or. now intros ->. Qed.

Lemma get_or_missing (items : list (string * json)) (k : string) (default : json) :
  lookup k items = None -> get_or items k default = default.
Proof. unfold get_or. now intros ->. Qed.

(** C4 (amended). A [tools/call] request of a registered tool whose arguments
    are a mapping is never rejected: it ends in a success envelope.
    [bedrock_chat] without [message] forwards the empty string as the user
    turn; [bedrock_analyze] puts the empty string for a missing [content]
    and the string [Analyze this] for a missing [task]. *)
Theorem missing_argument_defaults (items aitems : list (string * json)) (name : json) (w : world) :
  tools_call items name (JObj aitems) ->
  (name = JStr "bedrock_chat" ->
   lookup "message" aitems = None ->
   forwards items (JStr EmptyString) w) /\
  (name = JStr "bedrock_analyze" ->
   forall t c : string,
     lookup "task" aitems = Some (JStr t) \/
       (lookup "task" aitems = None /\ t = "Analyze this") ->
     lookup "content" aitems = Some (JStr c) \/
       (lookup "content" aitems = None /\ c = EmptyString) ->
     forwards items (JStr (t ++ nl ++ nl ++ "Content:" ++ nl ++ c)) w) /\
  (name = JStr "bedrock_chat" \/ name = JStr "bedrock_analyze" ->
   exists completion,
     fst (mcp_endpoint "POST" (JObj items) w)
     = Ok (success (id_of items) (payload completion))).
Proof.
  intros T. split; [|split].
  - intros -> Hm. apply forwards_answer.
    rewrite (dispatch_chat items aitems w T). now rewrite (get_or_missing _ _ _ Hm).
  - intros -> t c Ht Hc. apply forwards_answer.
    rewrite (dispatch_analyze items aitems w T).
    assert (Et : fmt (get_or aitems "task" (JStr "Analyze this")) = t).
    { destruct Ht as [Ht | [Ht ->]].
      - now rewrite (get_or_found _ _ _ _ Ht).
      - now rewrite (get_or_missing _ _ _ Ht). }
    assert (Ec : fmt (get_or aitems "content" (JStr EmptyString)) = c).
    { destruct Hc as [Hc | [Hc ->]].
      - now rewrite (get_or_found _ _ _ _ Hc).
      - now rewrite (get_or_missing _ _ _ Hc). }
    now rewrite Et, Ec.
  - intros R.
    assert (exists msg, user_turn name aitems msg) as (msg & U).
    { destruct R as [-> | ->]; eexists; [left | right]; split; reflexivity. }
    rewrite (dispatch_registered items aitems name msg w T U).
    destruct (answer_returns (id_of items) msg w) as (hive & completion & _ & _ & A).
    exists completion. now rewrite A.
Qed.

(** C5 (amended). When no client can be had (the slot is still unset after
    the getter has run), [call_bedrock] returns exactly the string
    [Bedrock client not available], and does nothing beyond what the getter
    did. *)
Theorem client_unavailable_text (message : json) (system_prompt : string) (w : world) :
  _bedrock_client (snd (get_bedrock_client w)) = None ->
  call_bedrock message system_prompt w
  = (Ok (JStr "Bedrock client not available"), snd (get_bedrock_client w)).
Proof.
  intros E. destruct (get_bedrock_client_slot w) as (G & _). cbv zeta in G.
  rewrite E in G. exact (call_bedrock_no_client message system_prompt _ _ G).
Qed.

(** What [call_bedrock] makes of a decoded answer that is an object: the
    empty string when it has no [content]; the text of the first block when
    its content array is not empty and the first block is an object, the
    empty string when that block has no [text]; and, for an empty content
    array, the text of the [IndexError] behind [Error: ]. *)
Theorem decoded_answer_text (message : json) (system_prompt : string) (w w1 : world)
    (c : client) (decoded : list (string * json)) :
  get_bedrock_client w = (Ok (Some c), w1) ->
  fst (invoke_model c BEDROCK_MODEL (bedrock_body message system_prompt) (out w1))
  = Ok (JObj decoded) ->
  (lookup "content" decoded = Some (JArr []) ->
   fst (call_bedrock message system_prompt w) = Ok (JStr "Error: list index out of range")) /\
  (lookup "content" decoded = None ->
   fst (call_bedrock message system_prompt w) = Ok (JStr EmptyString)) /\
  (forall (block : list (string * json)) (rest : list json),
      lookup "content" decoded = Some (JArr (JObj block :: rest)) ->
      (forall text, lookup "text" block = Some text ->
                    fst (call_bedrock message system_prompt w) = Ok text) /\
      (lookup "text" block = None ->
       fst (call_bedrock message system_prompt w) = Ok (JStr EmptyString))).
Proof.
  intros G I. rewrite (call_bedrock_client message system_prompt _ _ _ G). cbn [fst].
  rewrite I. unfold first_text, get. split; [|split].
  - now intros ->.
  - now intros ->.
  - intros block rest ->. cbn [item0]. split.
    + now intros text ->.
    + now intros ->.
Qed.

Lemma store_fails_empty (limit : Z) (w : world) :
  store_fails limit w -> fst (query_hive_mind limit w) = Ok EmptyString.
Proof.
  intros [[E (e & F)] | (c & w1 & e & G & F)].
  - destruct (connect (out w)) as [r o] eqn:B. cbn [fst] in F. subst r.
    pose proof (get_snowflake_connection_failed _ _ _ E B) as G.
    now rewrite (query_hive_mind_no_connection limit _ _ G).
  - rewrite (query_hive_mind_connected limit _ _ _ G). cbn [fst]. now rewrite F.
Qed.

(** C7. When the context store fails, because no connection can be had or
    because the query raises, [query_hive_mind] returns the empty string;
    and a [bedrock_chat] call is then answered with a success envelope, the
    system prompt handed to the model being the static prompt followed by
    the header of the context section and nothing after it. *)
Theorem store_failure_degrades (items aitems : list (string * json)) (limit : Z) (w : world) :
  (store_fails limit w -> fst (query_hive_mind limit w) = Ok EmptyString) /\
  (store_fails 3 w ->
   tools_call items (JStr "bedrock_chat") (JObj aitems) ->
   let system := (SOVEREIGN_MIND_PROMPT ++ nl ++ nl ++ "Hive Mind Context:" ++ nl ++ EmptyString)%string in
   let msg := get_or aitems "message" (JStr EmptyString) in
   let w1 := snd (query_hive_mind 3 w) in
   let w' := snd (mcp_endpoint "POST" (JObj items) w) in
   (exists completion,
       call_bedrock msg system w1 = (Ok completion, w') /\
       fst (mcp_endpoint "POST" (JObj items) w)
       = Ok (Jsonify (JObj [("jsonrpc", JStr "2.0"); ("id", id_of items);
                            ("result",
                             JObj [("content",
                                    JArr [JObj [("type", JStr "text");
                                                ("text",
                                                 JStr (Json.dumps
                                                         (JObj [("response", completion)])))]])])]))) /\
   prompts (trace w') = (prompts (trace w) ++ if served w1 then [JStr system] else [])%list).
Proof.
  split; [apply store_fails_empty|].
  intros F T system msg w1 w'.
  pose proof (store_fails_empty 3 w F) as E.
  pose proof (dispatch_chat items aitems w T) as D. fold msg in D.
  destruct (answer_returns (id_of items) msg w) as (hive & completion & Q & B & A).
  rewrite Q in E. cbn [fst] in E. injection E as ->.
  destruct (answer_trace (id_of items) msg w) as (hive & Q' & _ & P).
  rewrite Q in Q'. cbn [fst] in Q'. injection Q' as <-.
  subst w'. rewrite D. split.
  - exists completion. split; [exact B | now rewrite A].
  - exact P.
Qed.

(** C8. For a [bedrock_analyze] call whose arguments hold a [content] and a
    [task], both strings, the user turn handed to [call_bedrock], and
    submitted to the model when it can be reached, is the task, then a blank
    line, then [Content:] and a line break, then the content. *)
Theorem analyze_forwards_task_then_content (items aitems : list (string * json)) (t c : string)
    (w : world) :
  tools_call items (JStr "bedrock_analyze") (JObj aitems) ->
  lookup "content" aitems = Some (JStr c) ->
  lookup "task" aitems = Some (JStr t) ->
  forwards items (JStr (t ++ nl ++ nl ++ "Content:" ++ nl ++ c)) w.
Proof.
  intros T Hc Ht. apply forwards_answer.
  rewrite (dispatch_analyze items aitems w T).
  now rewrite (get_or_found _ _ _ _ Hc), (get_or_found _ _ _ _ Ht).
Qed.

(** C9 (amended). When [call_bedrock] returns the string [s] for the call of
    a registered tool, the answer is the success envelope whose
    [result.content] is the list of one text block, the text being
    [json.dumps] of the object with the one member [response] holding [s];
    and when no high surrogate of [s] is followed at once by a low
    surrogate, which holds of every string of well-formed Unicode text,
    reading that text back gives [s]. *)
Theorem completion_round_trip (items aitems : list (string * json)) (name msg : json)
    (w w1 w2 : world) (hive s : string) :
  tools_call items name (JObj aitems) ->
  user_turn name aitems msg ->
  query_hive_mind 3 w = (Ok hive, w1) ->
  call_bedrock msg (composite hive) w1 = (Ok (JStr s), w2) ->
  mcp_endpoint "POST" (JObj items) w
  = (Ok (Jsonify (JObj [("jsonrpc", JStr "2.0"); ("id", id_of items);
                        ("result",
                         JObj [("content",
                                JArr [JObj [("type", JStr "text");
                                            ("text",
                                             JStr (Json.dumps (JObj [("response", JStr s)])))]])])])),
     w2)
  /\ (forall l : list N,
         s = utf8 l ->
         Forall is_code_point l ->
         no_surrogate_pair l = true ->
         Json.loads_response (Json.dumps (JObj [("response", JStr s)])) = Some s).
Proof.
  intros T U Q B. split.
  - rewrite (dispatch_registered items aitems name msg w T U). unfold answer.
    now rewrite (bind_ok _ _ _ _ _ Q), (bind_ok _ _ _ _ _ B).
  - intros l -> V P. now apply loads_dumps_response.
Qed.

(** C10. With the same collaborators and from the same world, a
    [bedrock_analyze] call with the content [c] and the task [t] and a
    [bedrock_chat] call whose message is [t], a blank line, [Content:], a
    line break and [c], under the same id, give the same answer and leave
    the same world. *)
Theorem analyze_is_chat_of_built_message (items1 items2 args1 args2 : list (string * json))
    (c t : string) (w : world) :
  tools_call items1 (JStr "bedrock_analyze") (JObj args1) ->
  lookup "content" args1 = Some (JStr c) ->
  lookup "task" args1 = Some (JStr t) ->
  tools_call items2 (JStr "bedrock_chat") (JObj args2) ->
  lookup "message" args2 = Some (JStr (t ++ nl ++ nl ++ "Content:" ++ nl ++ c)) ->
  id_of items1 = id_of items2 ->
  mcp_endpoint "POST" (JObj items1) w = mcp_endpoint "POST" (JObj items2) w.
Proof.
  intros T1 Hc Ht T2 Hm I.
  rewrite (dispatch_analyze items1 args1 w T1), (dispatch_chat items2 args2 w T2).
  rewrite (get_or_found _ _ _ _ Hc), (get_or_found _ _ _ _ Ht), (get_or_found _ _ _ _ Hm), I.
  reflexivity.
Qed.

End Properties.

(** ** Concrete runs *)

(** C1 at a call of [unknown_tool] with the id 9, nothing being reachable. *)
Lemma unknown_tool_example :
  @mcp_endpoint Stub.offline "POST" (JObj (Stub.request "unknown_tool" [] (JInt 9)))
                (Stub.start Stub.offline tt)
  = (Ok (Jsonify (JObj [("jsonrpc", JStr "2.0"); ("id", JInt 9);
                        ("error", JObj [("code", JInt (-32601));
                                        ("message", JStr "Not found")])])),
     Stub.start Stub.offline tt).
Proof.
  refine (proj1 (@unknown_method_or_tool_not_found Stub.offline
                   (Stub.request "unknown_tool" [] (JInt 9)) (Stub.start Stub.offline tt) _)).
  right. exists (JStr "unknown_tool"), (JObj []).
  split; [split; [reflexivity | eexists; repeat split; reflexivity] | split; discriminate].
Defined.

(** C2 at a listing request whose id is a string. *)
Lemma tools_list_example :
  @mcp_endpoint Stub.offline "POST" (JObj [("method", JStr "tools/list"); ("id", JStr "abc")])
                (Stub.start Stub.offline tt)
  = (Ok (Jsonify (JObj [("jsonrpc", JStr "2.0"); ("id", JStr "abc");
                        ("result", JObj [("tools", registry)])])),
     Stub.start Stub.offline tt).
Proof.
  refine (proj1 (@tools_list_returns_registry Stub.offline
                   [("method", JStr "tools/list"); ("id", JStr "abc")]
                   (Stub.start Stub.offline tt) _)).
  reflexivity.
Defined.

(** C3 at an analysis whose call of the model is throttled. *)
Lemma throttled_example :
  fst (@mcp_endpoint Stub.model_raising "POST"
         (JObj (Stub.request "bedrock_analyze" [("content", JStr "x")] (JInt 7)))
         (Stub.start Stub.model_raising tt))
  = Ok (Jsonify (JObj [("jsonrpc", JStr "2.0"); ("id", JInt 7);
                       ("result",
                        JObj [("content",
                               JArr [JObj [("type", JStr "text");
                                           ("text",
                                            JStr ("{" ++ dq ++ "response" ++ dq ++ ": "
                                                      ++ dq ++ "Error: throttled" ++ dq ++ "}"))]])])])).
Proof.
  refine (proj2 (@inference_exception_in_band Stub.model_raising
                   (Stub.request "bedrock_analyze" [("content", JStr "x")] (JInt 7))
                   [("content", JStr "x")] (JStr "bedrock_analyze")
                   (JStr (analyze_turn "Analyze this" "x"))
                   (Stub.start Stub.model_raising tt)
                   (snd (@query_hive_mind Stub.model_raising 3 (Stub.start Stub.model_raising tt)))
                   (snd (@get_bedrock_client Stub.model_raising
                           (snd (@query_hive_mind Stub.model_raising 3
                                   (Stub.start Stub.model_raising tt)))))
                   "ops (note): all green" tt Stub.throttled _ _ _ _ _)).
  - split; [reflexivity | eexists; repeat split; reflexivity].
  - right. split; reflexivity.
  - reflexivity.
  - reflexivity.
  - left. reflexivity.
Defined.

(** C4 at an analysis without [task]. *)
Lemma missing_task_example :
  @forwards Stub.echoing (Stub.request "bedrock_analyze" [("content", JStr "x")] (JInt 1))
            (JStr ("Analyze this" ++ nl ++ nl ++ "Content:" ++ nl ++ "x"))
            (Stub.start Stub.echoing tt).
Proof.
  refine (proj1 (proj2 (@missing_argument_defaults Stub.echoing
                          (Stub.request "bedrock_analyze" [("content", JStr "x")] (JInt 1))
                          [("content", JStr "x")] (JStr "bedrock_analyze")
                          (Stub.start Stub.echoing tt) _))
                eq_refl "Analyze this" "x" _ _).
  - split; [reflexivity | eexists; repeat split; reflexivity].
  - right. split; reflexivity.
  - left. reflexivity.
Defined.

(** Against C4 as stated: an analysis without [task] does not submit the
    turn that has the empty string for the task. *)
Lemma missing_task_is_not_empty :
  let w' := snd (@mcp_endpoint Stub.echoing "POST"
                   (JObj (Stub.request "bedrock_analyze" [("content", JStr "x")] (JInt 1)))
                   (Stub.start Stub.echoing tt)) in
  submitted (trace w') = [JStr (analyze_turn "Analyze this" "x")] /\
  submitted (trace w') <> [JStr (analyze_turn EmptyString "x")].
Proof. split; [reflexivity | discriminate]. Qed.

(** C5 with nothing reachable. *)
Lemma client_unavailable_example :
  @call_bedrock Stub.offline (JStr "hi") EmptyString (Stub.start Stub.offline tt)
  = (Ok (JStr "Bedrock client not available"),
     snd (@get_bedrock_client Stub.offline (Stub.start Stub.offline tt))).
Proof.
  refine (@client_unavailable_text Stub.offline (JStr "hi") EmptyString
            (Stub.start Stub.offline tt) _).
  reflexivity.
Defined.

(** Against C5 as stated: the text is not [client not available]. *)
Lemma client_unavailable_is_prefixed :
  _bedrock_client (snd (@get_bedrock_client Stub.offline (Stub.start Stub.offline tt))) = None /\
  fst (@call_bedrock Stub.offline (JStr "hi") EmptyString (Stub.start Stub.offline tt))
  <> Ok (JStr "client not available").
Proof. split; [reflexivity | discriminate]. Qed.

(** [decoded_answer_text] at an answer whose content array is empty. *)
Lemma empty_content_example :
  fst (@call_bedrock Stub.answering_nothing (JStr "hi") EmptyString
         (Stub.start Stub.answering_nothing tt))
  = Ok (JStr "Error: list index out of range").
Proof.
  refine (proj1 (@decoded_answer_text Stub.answering_nothing (JStr "hi") EmptyString
                   (Stub.start Stub.answering_nothing tt)
                   (snd (@get_bedrock_client Stub.answering_nothing
                           (Stub.start Stub.answering_nothing tt)))
                   tt [("content", JArr [])] _ _) _);
    reflexivity.
Defined.

(** An empty content array does not give the empty string. *)
Lemma empty_content_is_not_empty_text :
  fst (@invoke_model Stub.answering_nothing tt (@BEDROCK_MODEL Stub.answering_nothing)
         (bedrock_body (JStr "hi") EmptyString) tt)
  = Ok (JObj [("content", JArr [])]) /\
  fst (@call_bedrock Stub.answering_nothing (JStr "hi") EmptyString
         (Stub.start Stub.answering_nothing tt))
  <> Ok (JStr EmptyString).
Proof. split; [reflexivity | discriminate]. Qed.

(** C6. The answers without a first text give the empty string when the
    [content] is missing and when the first block has no [text], the two
    cases the defaults of line 101 provide for; the third, an empty content
    array, gives [Error: list index out of range] where the claim, and
    those defaults, want the empty string. *)
Theorem empty_content_leaks_index_error :
  fst (@call_bedrock (Stub.answering_json (JObj [])) (JStr "hi") EmptyString
         (Stub.start (Stub.answering_json (JObj [])) tt))
  = Ok (JStr EmptyString) /\
  fst (@call_bedrock (Stub.answering_json (JObj [("content", JArr [JObj []])]))
         (JStr "hi") EmptyString
         (Stub.start (Stub.answering_json (JObj [("content", JArr [JObj []])])) tt))
  = Ok (JStr EmptyString) /\
  fst (@call_bedrock (Stub.answering_json (JObj [("content", JArr [])]))
         (JStr "hi") EmptyString
         (Stub.start (Stub.answering_json (JObj [("content", JArr [])])) tt))
  = Ok (JStr "Error: list index out of range").
Proof. split; [reflexivity | split; reflexivity]. Qed.

(** C7 at a chat whose query raises on a connection that was had: the one
    system prompt submitted is the static prompt with an empty context
    section. *)
Lemma query_raising_example :
  prompts (trace (snd (@mcp_endpoint Stub.query_raising "POST"
                         (JObj (Stub.request "bedrock_chat" [("message", JStr "hello")] (JInt 7)))
                         (Stub.start Stub.query_raising tt))))
  = [JStr (SOVEREIGN_MIND_PROMPT ++ nl ++ nl ++ "Hive Mind Context:" ++ nl)].
Proof.
  refine (proj2 (proj2 (@store_failure_degrades Stub.query_raising
                          (Stub.request "bedrock_chat" [("message", JStr "hello")] (JInt 7))
                          [("message", JStr "hello")] 3
                          (Stub.start Stub.query_raising tt)) _ _)).
  - right. exists tt. eexists. exists Stub.down. split; reflexivity.
  - split; [reflexivity | eexists; repeat split; reflexivity].
Defined.

(** C8 at a summary of [x]. *)
Lemma analyze_example :
  @forwards Stub.echoing
            (Stub.request "bedrock_analyze"
                          [("content", JStr "x"); ("task", JStr "Summarize")] (JInt 2))
            (JStr ("Summarize" ++ nl ++ nl ++ "Content:" ++ nl ++ "x"))
            (Stub.start Stub.echoing tt).
Proof.
  refine (@analyze_forwards_task_then_content Stub.echoing
            (Stub.request "bedrock_analyze"
                          [("content", JStr "x"); ("task", JStr "Summarize")] (JInt 2))
            [("content", JStr "x"); ("task", JStr "Summarize")] "Summarize" "x"
            (Stub.start Stub.echoing tt) _ _ _).
  - split; [reflexivity | eexists; repeat split; reflexivity].
  - reflexivity.
  - reflexivity.
Defined.

(** C9 at the request of the specification: a chat saying [hello] under the
    id 7, the model echoing. *)
Lemma hello_example :
  fst (@mcp_endpoint Stub.echoing "POST"
         (JObj [("method", JStr "tools/call");
                ("params", JObj [("name", JStr "bedrock_chat");
                                 ("arguments", JObj [("message", JStr "hello")])]);
                ("id", JInt 7)])
         (Stub.start Stub.echoing tt))
  = Ok (Jsonify (JObj [("jsonrpc", JStr "2.0"); ("id", JInt 7);
                       ("result",
                        JObj [("content",
                               JArr [JObj [("type", JStr "text");
                                           ("text",
                                            JStr ("{" ++ dq ++ "response" ++ dq ++ ": "
                                                      ++ dq ++ "hello" ++ dq ++ "}"))]])])]))
  /\ Json.loads_response ("{" ++ dq ++ "response" ++ dq ++ ": " ++ dq ++ "hello" ++ dq ++ "}")
     = Some "hello".
Proof.
  pose proof (@completion_round_trip Stub.echoing
                (Stub.request "bedrock_chat" [("message", JStr "hello")] (JInt 7))
                [("message", JStr "hello")] (JStr "bedrock_chat") (JStr "hello")
                (Stub.start Stub.echoing tt)
                (snd (@query_hive_mind Stub.echoing 3 (Stub.start Stub.echoing tt)))
                (snd (@call_bedrock Stub.echoing (JStr "hello") (composite EmptyString)
                        (snd (@query_hive_mind Stub.echoing 3 (Stub.start Stub.echoing tt)))))
                EmptyString "hello") as R.
  destruct R as [R1 R2].
  - split; [reflexivity | eexists; repeat split; reflexivity].
  - left. split; reflexivity.
  - reflexivity.
  - reflexivity.
  - split; [exact (f_equal fst R1)|].
    refine (R2 [104; 101; 108; 108; 111]%N eq_refl _ eq_refl).
    repeat constructor.
Defined.

(** Against C9 as stated: the model completes with a high surrogate and a low
    one, two characters; the text of the envelope holds their two escapes,
    and reading it back gives the one character of the pair, not the
    completion. *)
Lemma surrogates_do_not_round_trip :
  let completion := utf8 [0xD83D; 0xDE00]%N in
  let text := ("{" ++ dq ++ "response" ++ dq ++ ": " ++ dq
                   ++ Json.bs ++ "ud83d" ++ Json.bs ++ "ude00" ++ dq ++ "}")%string in
  fst (@call_bedrock (Stub.answering completion) (JStr "hello") (composite EmptyString)
         (snd (@query_hive_mind (Stub.answering completion) 3
                 (Stub.start (Stub.answering completion) tt))))
  = Ok (JStr completion) /\
  fst (@mcp_endpoint (Stub.answering completion) "POST"
         (JObj (Stub.request "bedrock_chat" [("message", JStr "hello")] (JInt 7)))
         (Stub.start (Stub.answering completion) tt))
  = Ok (Jsonify (JObj [("jsonrpc", JStr "2.0"); ("id", JInt 7);
                       ("result",
                        JObj [("content",
                               JArr [JObj [("type", JStr "text"); ("text", JStr text)]])])])) /\
  Json.loads_response text = Some (utf8 [0x1F600]%N) /\
  Json.loads_response text <> Some completion.
Proof.
  cbv zeta. split; [reflexivity | split; [reflexivity | split; [reflexivity | discriminate]]].
Qed.

(** C10 at a summary of [x] and the chat of the message built from it. *)
Lemma analyze_as_chat_example :
  @mcp_endpoint Stub.echoing "POST"
    (JObj (Stub.request "bedrock_analyze"
                        [("content", JStr "x"); ("task", JStr "Summarize")] (JInt 2)))
    (Stub.start Stub.echoing tt)
  = @mcp_endpoint Stub.echoing "POST"
      (JObj (Stub.request "bedrock_chat"
                          [("message", JStr ("Summarize" ++ nl ++ nl ++ "Content:" ++ nl ++ "x"))]
                          (JInt 2)))
      (Stub.start Stub.echoing tt).
Proof.
  refine (@analyze_is_chat_of_built_message Stub.echoing
            (Stub.request "bedrock_analyze"
                          [("content", JStr "x"); ("task", JStr "Summarize")] (JInt 2))
            (Stub.request "bedrock_chat"
                          [("message", JStr ("Summarize" ++ nl ++ nl ++ "Content:" ++ nl ++ "x"))]
                          (JInt 2))
            [("content", JStr "x"); ("task", JStr "Summarize")]
            [("message", JStr ("Summarize" ++ nl ++ nl ++ "Content:" ++ nl ++ "x"))]
            "x" "Summarize" (Stub.start Stub.echoing tt) _ _ _ _ _ _).
  - split; [reflexivity | eexists; repeat split; reflexivity].
  - reflexivity.
  - reflexivity.
  - split; [reflexivity | eexists; repeat split; reflexivity].
  - reflexivity.
  - reflexivity.
Defined.

(** ** Further properties of the server *)

Section Coverage.
Context `{Collaborators}.

Lemma calls_app (kind : event -> bool) (a b : list event) :
  calls kind (a ++ b) = (calls kind a + calls kind b)%nat.
Proof. unfold calls. now rewrite filter_app, length_app. Qed.

(** A request does one of three things: it leaves the world alone; it
    queries the store and raises; it runs [answer] to its end. *)
Lemma mcp_endpoint_cases (request_method : string) (data : json) (w : world) :
  (exists r, mcp_endpoint request_method data w = (r, w)) \/
  (exists e, mcp_endpoint request_method data w = (Raise e, snd (query_hive_mind 3 w))) \/
  (exists req_id msg, mcp_endpoint request_method data w = answer req_id msg w).
Proof.
  unfold mcp_endpoint.
  destruct (String.eqb request_method "OPTIONS"); [left; eexists; reflexivity|].
  destruct data as [| | | | |?|items]; try (left; eexists; reflexivity).
  rewrite !get_dict, !bind_lift_ok.
  destruct (eq_str (get_or items "method" (JStr EmptyString)) "tools/list");
    [left; eexists; reflexivity|].
  destruct (eq_str (get_or items "method" (JStr EmptyString)) "tools/call");
    [|left; eexists; reflexivity].
  destruct (get_or items "params" (JObj [])) as [| | | | |?|pitems];
    try (left; eexists; reflexivity).
  rewrite !get_dict, !bind_lift_ok.
  destruct (query_hive_mind_returns 3 w) as (hive & evs & Q & _).
  destruct (eq_str (get_or pitems "name" (JStr EmptyString)) "bedrock_chat").
  { rewrite (bind_ok _ _ _ _ _ Q).
    destruct (get_or pitems "arguments" (JObj [])) as [| | | | |?|aitems];
      try (right; left; eexists; reflexivity).
    right; right. eexists _, _. unfold answer. rewrite (bind_ok _ _ _ _ _ Q).
    rewrite get_dict, bind_lift_ok. reflexivity. }
  destruct (eq_str (get_or pitems "name" (JStr EmptyString)) "bedrock_analyze");
    [|left; eexists; reflexivity].
  rewrite (bind_ok _ _ _ _ _ Q).
  destruct (get_or pitems "arguments" (JObj [])) as [| | | | |?|aitems];
    try (right; left; eexists; reflexivity).
  right; right. eexists _, _. unfold answer. rewrite (bind_ok _ _ _ _ _ Q).
  rewrite !get_dict, !bind_lift_ok. reflexivity.
Qed.


(** *** What each function adds to the trace and does to the handles *)

Lemma get_snowflake_connection_effects (w : world) :
  let w' := snd (get_snowflake_connection w) in
  _bedrock_client w' = _bedrock_client w /\
  (forall c, _snowflake_conn w = Some c -> w' = w) /\
  exists evs,
    trace w' = (trace w ++ evs)%list /\
    tally evs = (match _snowflake_conn w with Some _ => 0 | None => 1 end, 0, 0, 0)%nat.
Proof.
  destruct (_snowflake_conn w) as [c|] eqn:E.
  - rewrite (get_snowflake_connection_cached _ _ E). cbn.
    repeat split; auto. exists []. now rewrite app_nil_r.
  - destruct (connect (out w)) as [[c|e] o] eqn:B.
    + rewrite (get_snowflake_connection_created _ _ _ E B). cbn - [app].
      repeat split; try discriminate. eexists. split; reflexivity.
    + rewrite (get_snowflake_connection_failed _ _ _ E B). cbn - [app].
      repeat split; try discriminate. eexists. split; reflexivity.
Qed.

Lemma get_bedrock_client_effects (w : world) :
  let w' := snd (get_bedrock_client w) in
  _snowflake_conn w' = _snowflake_conn w /\
  (forall c, _bedrock_client w = Some c -> w' = w) /\
  exists evs,
    trace w' = (trace w ++ evs)%list /\
    tally evs = (0, 0, match _bedrock_client w with Some _ => 0 | None => 1 end, 0)%nat.
Proof.
  destruct (_bedrock_client w) as [c|] eqn:E.
  - rewrite (get_bedrock_client_cached _ _ E). cbn.
    repeat split; auto. exists []. now rewrite app_nil_r.
  - destruct (boto3_client AWS_REGION (out w)) as [[c|e] o] eqn:B.
    + rewrite (get_bedrock_client_created _ _ _ E B). cbn - [app].
      repeat split; try discriminate. eexists. split; reflexivity.
    + rewrite (get_bedrock_client_failed _ _ _ E B). cbn - [app].
      repeat split; try discriminate. eexists. split; reflexivity.
Qed.

Lemma tally_app (a b : list event) :
  tally (a ++ b)
  = (let '(c1, e1, b1, i1) := tally a in
     let '(c2, e2, b2, i2) := tally b in
     (c1 + c2, e1 + e2, b1 + b2, i1 + i2))%nat.
Proof. unfold tally. now rewrite !calls_app. Qed.

Lemma query_hive_mind_effects (limit : Z) (w : world) :
  let w' := snd (query_hive_mind limit w) in
  _bedrock_client w' = _bedrock_client w /\
  (forall c, _snowflake_conn w = Some c -> _snowflake_conn w' = Some c) /\
  exists evs,
    trace w' = (trace w ++ evs)%list /\
    tally evs = (match _snowflake_conn w with Some _ => 0 | None => 1 end,
                 match _snowflake_conn w' with Some _ => 1 | None => 0 end, 0, 0)%nat.
Proof.
  destruct (get_snowflake_connection_slot w) as (G & _).
  destruct (get_snowflake_connection_effects w) as (B & K & evs & T & N).
  cbv zeta in *.
  destruct (_snowflake_conn (snd (get_snowflake_connection w))) as [c|] eqn:E.
  - rewrite (query_hive_mind_connected limit _ _ _ G). cbn [snd _bedrock_client _snowflake_conn trace].
    split; [exact B|]. split.
    + intros c0 E0. now rewrite (K _ E0).
    + exists (evs ++ [Execute c (hive_mind_sql limit)])%list.
      rewrite T, <- app_assoc, tally_app, N, E. split; [reflexivity|].
      destruct (_snowflake_conn w); reflexivity.
  - rewrite (query_hive_mind_no_connection limit _ _ G). cbn [snd].
    split; [exact B|]. split.
    + intros c0 E0. now rewrite (K _ E0).
    + exists evs. rewrite E. split; [exact T|]. rewrite N. reflexivity.
Qed.

Lemma call_bedrock_effects (message : json) (system_prompt : string) (w : world) :
  let w' := snd (call_bedrock message system_prompt w) in
  _snowflake_conn w' = _snowflake_conn w /\
  (forall c, _bedrock_client w = Some c -> _bedrock_client w' = Some c) /\
  exists evs,
    trace w' = (trace w ++ evs)%list /\
    tally evs = (0, 0, match _bedrock_client w with Some _ => 0 | None => 1 end,
                 match _bedrock_client w' with Some _ => 1 | None => 0 end)%nat.
Proof.
  destruct (get_bedrock_client_slot w) as (G & _).
  destruct (get_bedrock_client_effects w) as (B & K & evs & T & N).
  cbv zeta in *.
  destruct (_bedrock_client (snd (get_bedrock_client w))) as [c|] eqn:E.
  - rewrite (call_bedrock_client message system_prompt _ _ _ G).
    cbn [snd _bedrock_client _snowflake_conn trace].
    split; [exact B|]. split.
    + intros c0 E0. now rewrite (K _ E0).
    + exists (evs ++ [InvokeModel c BEDROCK_MODEL (bedrock_body message system_prompt)])%list.
      rewrite T, <- app_assoc, tally_app, N, E. split; [reflexivity|].
      destruct (_bedrock_client w); reflexivity.
  - rewrite (call_bedrock_no_client message system_prompt _ _ G). cbn [snd].
    split; [exact B|]. split.
    + intros c0 E0. now rewrite (K _ E0).
    + exists evs. rewrite E. split; [exact T|]. rewrite N. reflexivity.
Qed.


Lemma answer_effects (req_id msg : json) (w : world) :
  let w1 := snd (query_hive_mind 3 w) in
  let w' := snd (answer req_id msg w) in
  (forall c, _snowflake_conn w = Some c -> _snowflake_conn w' = Some c) /\
  (forall c, _bedrock_client w = Some c -> _bedrock_client w' = Some c) /\
  exists store_evs model_evs,
    trace w1 = (trace w ++ store_evs)%list /\
    trace w' = (trace w1 ++ model_evs)%list /\
    tally store_evs = (match _snowflake_conn w with Some _ => 0 | None => 1 end,
                       match _snowflake_conn w1 with Some _ => 1 | None => 0 end, 0, 0)%nat /\
    tally model_evs = (0, 0, match _bedrock_client w with Some _ => 0 | None => 1 end,
                       match _bedrock_client w' with Some _ => 1 | None => 0 end)%nat.
Proof.
  destruct (answer_returns req_id msg w) as (hive & completion & Q & B & A).
  apply (f_equal snd) in B. cbn [snd] in B. cbv zeta. rewrite <- B.
  destruct (query_hive_mind_effects 3 w) as (Qb & Qs & sevs & Qt & Qn).
  destruct (call_bedrock_effects msg (composite hive) (snd (query_hive_mind 3 w)))
    as (Cs & Cb & mevs & Ct & Cn).
  cbv zeta in *. split; [|split].
  - intros c E. rewrite Cs. now apply Qs.
  - intros c E. apply Cb. now rewrite Qb.
  - exists sevs, mevs. rewrite Qb in Cn. auto.
Qed.

Lemma mcp_endpoint_effects (request_method : string) (data : json) (w : world) :
  let w' := snd (mcp_endpoint request_method data w) in
  (forall c, _snowflake_conn w = Some c -> _snowflake_conn w' = Some c) /\
  (forall c, _bedrock_client w = Some c -> _bedrock_client w' = Some c) /\
  exists store_evs model_evs cn ex bc im,
    trace w' = (trace w ++ store_evs ++ model_evs)%list /\
    tally store_evs = (cn, ex, 0, 0)%nat /\
    tally model_evs = (0, 0, bc, im)%nat /\
    (cn <= match _snowflake_conn w with Some _ => 0 | None => 1 end)%nat /\
    (ex <= 1)%nat /\
    (bc <= match _bedrock_client w with Some _ => 0 | None => 1 end)%nat /\
    (im <= 1)%nat.
Proof.
  cbv zeta.
  destruct (mcp_endpoint_cases request_method data w)
    as [(r & E) | [(e & E) | (req_id & msg & E)]]; rewrite E; cbn [snd].
  - split; [auto | split; [auto|]].
    exists [], [], 0%nat, 0%nat, 0%nat, 0%nat. rewrite app_nil_r.
    repeat split; try reflexivity; try lia; destruct (_snowflake_conn w), (_bedrock_client w); lia.
  - destruct (query_hive_mind_effects 3 w) as (Qb & Qs & sevs & Qt & Qn). cbv zeta in *.
    split; [exact Qs | split; [intros c Ec; now rewrite Qb|]].
    eexists sevs, [], _, _, 0%nat, 0%nat. rewrite app_nil_r.
    split; [exact Qt | split; [exact Qn | split; [reflexivity|]]].
    destruct (_snowflake_conn w), (_snowflake_conn (snd (query_hive_mind 3 w))),
      (_bedrock_client w); repeat split; lia.
  - destruct (answer_effects req_id msg w) as (Ks & Kb & sevs & mevs & Ts & Tm & Ns & Nm).
    cbv zeta in *. split; [exact Ks | split; [exact Kb|]].
    eexists sevs, mevs, _, _, _, _.
    split; [now rewrite Tm, Ts, app_assoc | split; [exact Ns | split; [exact Nm|]]].
    destruct (_snowflake_conn w), (_snowflake_conn (snd (query_hive_mind 3 w))),
      (_bedrock_client w), (_bedrock_client (snd (answer req_id msg w)));
      repeat split; lia.
Qed.


Lemma index_world (w : world) :
  index w
  = (Ok (Jsonify (JObj [("service", JStr "bedrock-mcp"); ("version", JStr "1.0.0");
                        ("status", JStr "healthy");
                        ("instance", JStr "BEDROCK"); ("platform", JStr "AWS");
                        ("role", JStr "Enterprise AI"); ("model", JStr BEDROCK_MODEL);
                        ("sovereign_mind", JBool true);
                        ("hive_mind_connected",
                         JBool match _snowflake_conn (snd (get_snowflake_connection w)) with
                               | Some _ => true
                               | None => false
                               end);
                        ("region", JStr AWS_REGION)])),
     snd (get_snowflake_connection w)).
Proof.
  destruct (get_snowflake_connection_slot w) as (G & _). cbv zeta in G.
  unfold index. now rewrite (bind_ok _ _ _ _ _ G).
Qed.

(** *** The extra properties *)

(** X1. No view unsets a handle: a connection or a client that is cached
    before a request to [/mcp], whatever the request and however it ends, or
    before a request to [/], is still the cached one after it. *)
Theorem handles_are_kept (request_method : string) (data : json) (w : world) :
  (forall c, _snowflake_conn w = Some c ->
             _snowflake_conn (snd (mcp_endpoint request_method data w)) = Some c /\
             _snowflake_conn (snd (index w)) = Some c) /\
  (forall c, _bedrock_client w = Some c ->
             _bedrock_client (snd (mcp_endpoint request_method data w)) = Some c /\
             _bedrock_client (snd (index w)) = Some c).
Proof.
  destruct (mcp_endpoint_effects request_method data w) as (Ks & Kb & _).
  destruct (get_snowflake_connection_effects w) as (B & K & _).
  cbv zeta in *. rewrite index_world. cbn [snd]. split.
  - intros c E. split; [now apply Ks | now rewrite (K _ E)].
  - intros c E. split; [now apply Kb | now rewrite B].
Qed.

(** X2. A request to [/mcp] never retries and keeps its order: what it adds
    to the trace is first the calls to the store and then the calls to the
    model, with at most one connection, none when a connection is cached,
    at most one query, at most one client creation, none when a client is
    cached, and at most one invocation of the model. *)
Theorem request_calls_once_in_order (request_method : string) (data : json) (w : world) :
  exists store_evs model_evs,
    trace (snd (mcp_endpoint request_method data w))
    = (trace w ++ store_evs ++ model_evs)%list /\
    (calls is_Connect store_evs <= 1 /\ calls is_Execute store_evs <= 1 /\
     calls is_Boto3Client store_evs = 0 /\ calls is_InvokeModel store_evs = 0)%nat /\
    (calls is_Connect model_evs = 0 /\ calls is_Execute model_evs = 0 /\
     calls is_Boto3Client model_evs <= 1 /\ calls is_InvokeModel model_evs <= 1)%nat /\
    (forall c, _snowflake_conn w = Some c -> calls is_Connect store_evs = 0%nat) /\
    (forall c, _bedrock_client w = Some c -> calls is_Boto3Client model_evs = 0%nat).
Proof.
  destruct (mcp_endpoint_effects request_method data w)
    as (_ & _ & sevs & mevs & cn & ex & bc & im & T & Ns & Nm & Lc & Le & Lb & Li).
  cbv zeta in T. exists sevs, mevs. unfold tally in Ns, Nm.
  injection Ns as N1 N2 N3 N4. injection Nm as M1 M2 M3 M4.
  rewrite N1, N2, N3, N4, M1, M2, M3, M4.
  split; [exact T|]. split; [|split; [|split]].
  - repeat split; try reflexivity; try assumption. destruct (_snowflake_conn w); lia.
  - repeat split; try reflexivity; try assumption. destruct (_bedrock_client w); lia.
  - intros c E. rewrite E in Lc. lia.
  - intros c E. rewrite E in Lb. lia.
Qed.

(** X3. With both handles cached, the call of a registered tool with a mapping
    of arguments adds two calls to the trace and no more: the query of the
    three latest records on the cached connection, then the invocation of
    the configured model on the cached client, with the body made of the
    user turn and of the system prompt built from what that query gave. *)
Theorem warm_request_trace (items aitems : list (string * json)) (name msg : json)
    (w : world) (conn : connection) (c : client) :
  _snowflake_conn w = Some conn ->
  _bedrock_client w = Some c ->
  tools_call items name (JObj aitems) ->
  user_turn name aitems msg ->
  exists hive,
    fst (query_hive_mind 3 w) = Ok hive /\
    trace (snd (mcp_endpoint "POST" (JObj items) w))
    = (trace w ++ [Execute conn (hive_mind_sql 3);
                   InvokeModel c BEDROCK_MODEL (bedrock_body msg (composite hive))])%list.
Proof.
  intros Es Eb T U. rewrite (dispatch_registered items aitems name msg w T U).
  pose proof (get_snowflake_connection_cached _ _ Es) as G.
  pose proof (query_hive_mind_connected 3 _ _ _ G) as Q.
  eexists. split; [rewrite Q; reflexivity|].
  unfold answer. rewrite (bind_ok _ _ _ _ _ Q).
  match goal with
  | |- context [bind (call_bedrock msg (composite ?hive)) _ ?w1] =>
      assert (G' : get_bedrock_client w1 = (Ok (Some c), w1))
        by (apply get_bedrock_client_cached; exact Eb);
      pose proof (call_bedrock_client msg (composite hive) _ _ _ G') as B
  end.
  cbv zeta in B. rewrite (bind_ok _ _ _ _ _ B). cbn [ret snd trace].
  now rewrite <- app_assoc.
Qed.

(** X4. A handle that a getter has handed out is handed out again by the next
    call of the getter, which calls nothing and leaves the world as it
    is. *)
Theorem created_handle_is_reused (w : world) :
  (forall c, fst (get_snowflake_connection w) = Ok (Some c) ->
             get_snowflake_connection (snd (get_snowflake_connection w))
             = (Ok (Some c), snd (get_snowflake_connection w))) /\
  (forall c, fst (get_bedrock_client w) = Ok (Some c) ->
             get_bedrock_client (snd (get_bedrock_client w))
             = (Ok (Some c), snd (get_bedrock_client w))).
Proof.
  split; intros c E.
  - destruct (get_snowflake_connection_slot w) as (G & _). cbv zeta in G.
    rewrite G in E. cbn [fst] in E. injection E as E.
    now apply get_snowflake_connection_cached.
  - destruct (get_bedrock_client_slot w) as (G & _). cbv zeta in G.
    rewrite G in E. cbn [fst] in E. injection E as E.
    now apply get_bedrock_client_cached.
Qed.

(** X5. A failed creation is not remembered: when no client is cached and
    [boto3.client] raises, the getter returns [None], logs the failure,
    leaves the slot unset, and the next call of the getter calls
    [boto3.client] again; the same holds of the connection and [connect]. *)
Theorem failed_creation_is_retried (w : world) (e : exn) :
  (_bedrock_client w = None ->
   fst (boto3_client AWS_REGION (out w)) = Raise e ->
   let w1 := snd (get_bedrock_client w) in
   fst (get_bedrock_client w) = Ok None /\
   _bedrock_client w1 = None /\
   trace w1 = (trace w ++ [Boto3Client AWS_REGION;
                           Log "ERROR" ("Bedrock init failed: " ++ exn_text e)])%list /\
   calls is_Boto3Client (trace (snd (get_bedrock_client w1)))
   = (calls is_Boto3Client (trace w) + 2)%nat) /\
  (_snowflake_conn w = None ->
   fst (connect (out w)) = Raise e ->
   let w1 := snd (get_snowflake_connection w) in
   fst (get_snowflake_connection w) = Ok None /\
   _snowflake_conn w1 = None /\
   trace w1 = (trace w ++ [Connect; Log "ERROR" ("Snowflake failed: " ++ exn_text e)])%list /\
   calls is_Connect (trace (snd (get_snowflake_connection w1)))
   = (calls is_Connect (trace w) + 2)%nat).
Proof.
  split; intros E F.
  - destruct (boto3_client AWS_REGION (out w)) as [r o] eqn:B. cbn [fst] in F. subst r.
    rewrite (get_bedrock_client_failed _ _ _ E B). cbn [fst snd _bedrock_client trace].
    repeat split.
    match goal with
    | |- context [get_bedrock_client ?w1] =>
        destruct (get_bedrock_client_effects w1) as (_ & _ & evs & T & N)
    end.
    cbv zeta in T, N. cbn [_bedrock_client trace] in T, N. rewrite T.
    unfold tally in N. injection N as _ _ N _.
    rewrite !calls_app, N. cbn. lia.
  - destruct (connect (out w)) as [r o] eqn:B. cbn [fst] in F. subst r.
    rewrite (get_snowflake_connection_failed _ _ _ E B). cbn [fst snd _snowflake_conn trace].
    repeat split.
    match goal with
    | |- context [get_snowflake_connection ?w1] =>
        destruct (get_snowflake_connection_effects w1) as (_ & _ & evs & T & N)
    end.
    cbv zeta in T, N. cbn [_snowflake_conn trace] in T, N. rewrite T.
    unfold tally in N. injection N as N _ _ _.
    rewrite !calls_app, N. cbn. lia.
Qed.


(** X6. The view of [/] never raises.  It reports [hive_mind_connected] true
    exactly when a connection is cached once it is done; it calls [connect]
    once when none was cached before and not at all otherwise; and after it
    has reported true, a query of the store connects no more. *)
Theorem index_reports_connection (w : world) :
  exists connected : bool,
    fst (index w)
    = Ok (Jsonify (JObj [("service", JStr "bedrock-mcp"); ("version", JStr "1.0.0");
                         ("status", JStr "healthy");
                         ("instance", JStr "BEDROCK"); ("platform", JStr "AWS");
                         ("role", JStr "Enterprise AI"); ("model", JStr BEDROCK_MODEL);
                         ("sovereign_mind", JBool true);
                         ("hive_mind_connected", JBool connected);
                         ("region", JStr AWS_REGION)])) /\
    (connected = true <-> exists c, _snowflake_conn (snd (index w)) = Some c) /\
    calls is_Connect (trace (snd (index w)))
    = (calls is_Connect (trace w)
       + match _snowflake_conn w with Some _ => 0 | None => 1 end)%nat /\
    (connected = true ->
     forall limit,
       calls is_Connect (trace (snd (query_hive_mind limit (snd (index w)))))
       = calls is_Connect (trace (snd (index w)))).
Proof.
  rewrite index_world. cbn [fst snd].
  destruct (get_snowflake_connection_effects w) as (_ & _ & evs & T & N).
  cbv zeta in T, N. unfold tally in N. injection N as N _ _ _.
  eexists. split; [reflexivity|]. split; [|split].
  - destruct (_snowflake_conn (snd (get_snowflake_connection w))) as [c|].
    + split; [intros _; now exists c | reflexivity].
    + split; [discriminate | intros (c & E); discriminate].
  - now rewrite T, calls_app, N.
  - intros E limit.
    destruct (query_hive_mind_effects limit (snd (get_snowflake_connection w)))
      as (_ & _ & qevs & Tq & Nq).
    cbv zeta in Tq, Nq. unfold tally in Nq. injection Nq as Nq _ _ _.
    rewrite Tq, calls_app, Nq.
    destruct (_snowflake_conn (snd (get_snowflake_connection w))); [lia | discriminate].
Qed.

(** X7. A request to [/mcp] whose body is not an object raises the
    [AttributeError] that names the type of the body, and a [tools/call]
    whose [params] is not an object (a null, a list) raises the one that
    names the type of [params]; either way nothing is called and the world
    is as before. *)
Theorem malformed_request_raises (w : world) :
  (forall data,
      (forall items, data <> JObj items) ->
      mcp_endpoint "POST" data w
      = (Raise (Raised "AttributeError"
                       ("'" ++ type_name data ++ "' object has no attribute 'get'")), w)) /\
  (forall items params,
      get_or items "method" (JStr EmptyString) = JStr "tools/call" ->
      get_or items "params" (JObj []) = params ->
      (forall pitems, params <> JObj pitems) ->
      mcp_endpoint "POST" (JObj items) w
      = (Raise (Raised "AttributeError"
                       ("'" ++ type_name params ++ "' object has no attribute 'get'")), w)).
Proof.
  split.
  - intros data N. destruct data as [| | | | |?|items]; try reflexivity. now destruct (N items).
  - intros items params Hm Hp N. unfold mcp_endpoint.
    change (String.eqb "POST" "OPTIONS") with false. cbv iota.
    rewrite !get_dict, !bind_lift_ok, Hm, Hp.
    change (eq_str (JStr "tools/call") "tools/list") with false.
    change (eq_str (JStr "tools/call") "tools/call") with true. cbv iota.
    destruct params as [| | | | |?|pitems]; try reflexivity. now destruct (N pitems).
Qed.

(** X8. The call of a registered tool whose [arguments] is not a mapping
    raises the [AttributeError] that names the type of [arguments], but only
    after the store has been queried: the world it leaves is the one the
    query leaves, and neither a client is created nor the model invoked. *)
Theorem bad_arguments_raise_after_query (items : list (string * json)) (name args : json)
    (w : world) :
  tools_call items name args ->
  name = JStr "bedrock_chat" \/ name = JStr "bedrock_analyze" ->
  (forall aitems, args <> JObj aitems) ->
  mcp_endpoint "POST" (JObj items) w
  = (Raise (Raised "AttributeError"
                   ("'" ++ type_name args ++ "' object has no attribute 'get'")),
     snd (query_hive_mind 3 w)) /\
  _bedrock_client (snd (query_hive_mind 3 w)) = _bedrock_client w /\
  calls is_Boto3Client (trace (snd (query_hive_mind 3 w))) = calls is_Boto3Client (trace w) /\
  calls is_InvokeModel (trace (snd (query_hive_mind 3 w))) = calls is_InvokeModel (trace w).
Proof.
  intros (Hm & pitems & Hp & Hn & Ha) R N.
  destruct (query_hive_mind_returns 3 w) as (hive & _ & Q & _).
  destruct (query_hive_mind_effects 3 w) as (Qb & _ & evs & T & Nt).
  cbv zeta in Qb, T, Nt. unfold tally in Nt. injection Nt as _ _ N3 N4.
  split; [|split; [exact Qb | rewrite T, !calls_app, N3, N4; lia]].
  unfold mcp_endpoint. change (String.eqb "POST" "OPTIONS") with false. cbv iota.
  rewrite !get_dict, !bind_lift_ok, Hm, Hp.
  change (eq_str (JStr "tools/call") "tools/list") with false.
  change (eq_str (JStr "tools/call") "tools/call") with true. cbv iota.
  rewrite !get_dict, !bind_lift_ok, Hn, Ha.
  destruct R as [-> | ->].
  - change (eq_str (JStr "bedrock_chat") "bedrock_chat") with true. cbv iota.
    rewrite (bind_ok _ _ _ _ _ Q). destruct args as [| | | | |?|aitems]; try reflexivity. now destruct (N aitems).
  - change (eq_str (JStr "bedrock_analyze") "bedrock_chat") with false.
    change (eq_str (JStr "bedrock_analyze") "bedrock_analyze") with true. cbv iota.
    rewrite (bind_ok _ _ _ _ _ Q). destruct args as [| | | | |?|aitems]; try reflexivity. now destruct (N aitems).
Qed.


(** *** The rendering of the records *)

Lemma render_rows_lines (rows : list (list json)) (lines : list string) :
  Forall2 line_of rows lines -> render_rows rows = Ok lines.
Proof.
  induction 1 as [|r line rows lines (a & b & c & more & -> & ->) _ IH].
  - reflexivity.
  - cbn. now rewrite IH.
Qed.

Lemma render_row_short (r : list json) :
  (length r < 3)%nat -> render_row r = Raise (IndexError "tuple").
Proof.
  destruct r as [|a [|b [|c more]]]; cbn; try reflexivity. lia.
Qed.

Lemma render_rows_short (rows : list (list json)) :
  Exists (fun r => (length r < 3)%nat) rows -> exists e, render_rows rows = Raise e.
Proof.
  induction 1 as [r rows S | r rows _ (e & IH)]; cbn.
  - rewrite (render_row_short r S). now eexists.
  - rewrite IH. destruct (render_row r); now eexists.
Qed.

(** X9. On a connection that was had, when the query gives rows: if every
    row has three columns or more, the context is the rows in their order,
    one line each, [source (category): summary] made of the first three
    columns, joined by line breaks (the empty string when there is no row);
    if any row has fewer than three columns, the context is the empty
    string, the other rows being dropped with it. *)
Theorem context_is_rows_or_nothing (limit : Z) (w w1 : world) (conn : connection)
    (rows : list (list json)) :
  get_snowflake_connection w = (Ok (Some conn), w1) ->
  fst (execute_fetchall conn (hive_mind_sql limit) (out w1)) = Ok rows ->
  (forall lines, Forall2 line_of rows lines ->
                 fst (query_hive_mind limit w) = Ok (join nl lines)) /\
  (Exists (fun r => (length r < 3)%nat) rows ->
   fst (query_hive_mind limit w) = Ok EmptyString).
Proof.
  intros G F. rewrite (query_hive_mind_connected limit _ _ _ G). cbn [fst]. rewrite F.
  split.
  - intros lines L. now rewrite (render_rows_lines rows lines L).
  - intros S. destruct (render_rows_short rows S) as (e & R). now rewrite R.
Qed.

(** *** The text of the envelope *)

(** X10. Whatever string [call_bedrock] returns for the call of a registered
    tool, be its characters ASCII, of the basic plane, beyond it or
    surrogates, the text of the envelope, which is [json.dumps] of the
    object holding it under [response], holds only the characters from the
    space to the tilde: no line break, no control character and nothing
    beyond ASCII stands in it raw. *)
Theorem envelope_text_is_printable_ascii (items aitems : list (string * json))
    (name msg : json) (w w1 w2 : world) (hive s : string) :
  tools_call items name (JObj aitems) ->
  user_turn name aitems msg ->
  query_hive_mind 3 w = (Ok hive, w1) ->
  call_bedrock msg (composite hive) w1 = (Ok (JStr s), w2) ->
  exists text,
    fst (mcp_endpoint "POST" (JObj items) w)
    = Ok (Jsonify (JObj [("jsonrpc", JStr "2.0"); ("id", id_of items);
                         ("result",
                          JObj [("content",
                                 JArr [JObj [("type", JStr "text");
                                             ("text", JStr text)]])])])) /\
    text = Json.dumps (JObj [("response", JStr s)]) /\
    printable text = true.
Proof.
  intros T U Q B. exists (Json.dumps (JObj [("response", JStr s)])).
  split; [|split; [reflexivity | apply printable_dumps_response]].
  rewrite (dispatch_registered items aitems name msg w T U). unfold answer.
  now rewrite (bind_ok _ _ _ _ _ Q), (bind_ok _ _ _ _ _ B).
Qed.

(** X11. What [call_bedrock] returns does not tell a failure from an answer:
    a call of the model that raises [e] and a call of the model that answers
    with the text [Error: ] followed by the text of [e] give the same
    completion. *)
Theorem error_text_is_in_band (message : json) (system_prompt : string)
    (w w1 v v1 : world) (c c' : client) (e : exn) (decoded : json) :
  get_bedrock_client w = (Ok (Some c), w1) ->
  fst (invoke_model c BEDROCK_MODEL (bedrock_body message system_prompt) (out w1)) = Raise e ->
  get_bedrock_client v = (Ok (Some c'), v1) ->
  fst (invoke_model c' BEDROCK_MODEL (bedrock_body message system_prompt) (out v1)) = Ok decoded ->
  first_text decoded = Ok (JStr ("Error: " ++ exn_text e)) ->
  fst (call_bedrock message system_prompt w) = fst (call_bedrock message system_prompt v).
Proof.
  intros G R G' A F.
  rewrite (call_bedrock_client message system_prompt _ _ _ G),
          (call_bedrock_client message system_prompt _ _ _ G').
  cbn [fst]. now rewrite R, A, F.
Qed.

(** X12. [bedrock_chat] forwards the value under [message] as it is, whatever
    its JSON type, while [bedrock_analyze] makes one string of its two
    values, a value that is not a string going through [str]. *)
Theorem turns_by_tool (items aitems : list (string * json)) (w : world) :
  (tools_call items (JStr "bedrock_chat") (JObj aitems) ->
   forall v, lookup "message" aitems = Some v -> forwards items v w) /\
  (tools_call items (JStr "bedrock_analyze") (JObj aitems) ->
   forall task content,
     lookup "task" aitems = Some task ->
     lookup "content" aitems = Some content ->
     forwards items
       (JStr (match task with JStr t => t | _ => py_str task end
              ++ nl ++ nl ++ "Content:" ++ nl
              ++ match content with JStr c => c | _ => py_str content end)) w).
Proof.
  split.
  - intros T v E. apply forwards_answer.
    now rewrite (dispatch_chat items aitems w T), (get_or_found _ _ _ _ E).
  - intros T task content Et Ec. apply forwards_answer.
    now rewrite (dispatch_analyze items aitems w T),
                (get_or_found _ _ _ _ Et), (get_or_found _ _ _ _ Ec).
Qed.


(** *** The envelopes *)

Lemma mcp_endpoint_replies (items : list (string * json)) (w : world) :
  mcp_endpoint "POST" (JObj items) w = (Ok (listing (id_of items) registry), w) \/
  mcp_endpoint "POST" (JObj items) w = (Ok (not_found (id_of items)), w) \/
  (exists e w', mcp_endpoint "POST" (JObj items) w = (Raise e, w')) \/
  (exists msg, mcp_endpoint "POST" (JObj items) w = answer (id_of items) msg w).
Proof.
  unfold mcp_endpoint. change (String.eqb "POST" "OPTIONS") with false. cbv iota.
  rewrite !get_dict, !bind_lift_ok.
  destruct (eq_str (get_or items "method" (JStr EmptyString)) "tools/list");
    [left; reflexivity|].
  destruct (eq_str (get_or items "method" (JStr EmptyString)) "tools/call");
    [|right; left; reflexivity].
  destruct (get_or items "params" (JObj [])) as [| | | | |?|pitems];
    try (right; right; left; eexists _, _; reflexivity).
  rewrite !get_dict, !bind_lift_ok.
  destruct (query_hive_mind_returns 3 w) as (hive & evs & Q & _).
  destruct (eq_str (get_or pitems "name" (JStr EmptyString)) "bedrock_chat").
  { rewrite (bind_ok _ _ _ _ _ Q).
    destruct (get_or pitems "arguments" (JObj [])) as [| | | | |?|aitems];
      try (right; right; left; eexists _, _; reflexivity).
    right; right; right. eexists. unfold answer. rewrite (bind_ok _ _ _ _ _ Q).
    rewrite get_dict, bind_lift_ok. reflexivity. }
  destruct (eq_str (get_or pitems "name" (JStr EmptyString)) "bedrock_analyze");
    [|right; left; reflexivity].
  rewrite (bind_ok _ _ _ _ _ Q).
  destruct (get_or pitems "arguments" (JObj [])) as [| | | | |?|aitems];
    try (right; right; left; eexists _, _; reflexivity).
  right; right; right. eexists. unfold answer. rewrite (bind_ok _ _ _ _ _ Q).
  rewrite !get_dict, !bind_lift_ok. reflexivity.
Qed.

(** X13. Every reply the view of [/mcp] returns to a POST of an object is an
    envelope: an object with [jsonrpc] at [2.0], with the id of the request
    (1 when the request has none), and with either a [result] and no
    [error], or no [result] and the error of code -32601 and message
    [Not found]; no other error code is ever sent. *)
Theorem reply_is_an_envelope (items : list (string * json)) (w : world) (r : reply) :
  fst (mcp_endpoint "POST" (JObj items) w) = Ok r ->
  exists env,
    r = Jsonify (JObj env) /\
    lookup "jsonrpc" env = Some (JStr "2.0") /\
    lookup "id" env = Some (get_or items "id" (JInt 1)) /\
    ((exists res, lookup "result" env = Some res /\ lookup "error" env = None) \/
     (lookup "result" env = None /\
      lookup "error" env
      = Some (JObj [("code", JInt (-32601)); ("message", JStr "Not found")]))).
Proof.
  intros E.
  destruct (mcp_endpoint_replies items w) as [R | [R | [(e & w' & R) | (msg & R)]]];
    rewrite R in E; cbn [fst] in E.
  - injection E as <-. eexists. split; [reflexivity|].
    repeat split. left. eexists. split; reflexivity.
  - injection E as <-. eexists. split; [reflexivity|].
    repeat split. right. split; reflexivity.
  - discriminate.
  - destruct (answer_returns (id_of items) msg w) as (hive & completion & _ & _ & A).
    rewrite A in E. cbn [fst] in E. injection E as <-. eexists. split; [reflexivity|].
    repeat split. left. eexists. split; reflexivity.
Qed.

(** X14. An answer of the model that has not the expected shape is reported
    in the completion, with the text Python gives the error: an answer that
    is not an object, or a first block that is not an object, gives
    [Error: 'T' object has no attribute 'get'] for its type [T]; a [content]
    that is an object gives [Error: 0], the text of the [KeyError]; a
    [content] that is null, a boolean or a number gives
    [Error: 'T' object is not subscriptable]. *)
Theorem misshapen_answer_text (message : json) (system_prompt : string) (w w1 : world)
    (c : client) (decoded : json) :
  get_bedrock_client w = (Ok (Some c), w1) ->
  fst (invoke_model c BEDROCK_MODEL (bedrock_body message system_prompt) (out w1))
  = Ok decoded ->
  ((forall items, decoded <> JObj items) ->
   fst (call_bedrock message system_prompt w)
   = Ok (JStr ("Error: '" ++ type_name decoded ++ "' object has no attribute 'get'"))) /\
  (forall items content,
      decoded = JObj items ->
      lookup "content" items = Some content ->
      (forall first rest,
          content = JArr (first :: rest) ->
          (forall block, first <> JObj block) ->
          fst (call_bedrock message system_prompt w)
          = Ok (JStr ("Error: '" ++ type_name first ++ "' object has no attribute 'get'"))) /\
      (forall members,
          content = JObj members ->
          fst (call_bedrock message system_prompt w) = Ok (JStr "Error: 0")) /\
      (content = JNull \/ (exists b, content = JBool b) \/
       (exists z, content = JInt z) \/ (exists l, content = JFloat l) ->
       fst (call_bedrock message system_prompt w)
       = Ok (JStr ("Error: '" ++ type_name content ++ "' object is not subscriptable")))).
Proof.
  intros G I. rewrite (call_bedrock_client message system_prompt _ _ _ G). cbn [fst].
  rewrite I. split.
  - intros N. destruct decoded as [| | | | |?|items]; try reflexivity. now destruct (N items).
  - intros items content -> L. unfold first_text, get. rewrite L. split; [|split].
    + intros first rest -> N. cbn [item0].
      destruct first as [| | | | |?|block]; try reflexivity. now destruct (N block).
    + now intros members ->.
    + intros [-> | [(b & ->) | [(z & ->) | (l & ->)]]]; reflexivity.
Qed.

End Coverage.

(** ** Concrete runs of the further properties *)

(** X1 at a chat on a process that holds both handles. *)
Lemma handles_kept_example :
  _snowflake_conn
    (snd (@mcp_endpoint Stub.healthy "POST"
            (JObj (Stub.request "bedrock_chat" [("message", JStr "hello")] (JInt 7)))
            (Stub.warm Stub.healthy tt tt tt)))
  = Some tt.
Proof.
  refine (proj1 (proj1 (@handles_are_kept Stub.healthy "POST"
                          (JObj (Stub.request "bedrock_chat" [("message", JStr "hello")] (JInt 7)))
                          (Stub.warm Stub.healthy tt tt tt)) tt _)).
  reflexivity.
Defined.

(** X3 at a chat on a process that holds both handles, the store holding two
    records. *)
Lemma warm_request_example :
  trace (snd (@mcp_endpoint Stub.healthy "POST"
                (JObj (Stub.request "bedrock_chat" [("message", JStr "hello")] (JInt 7)))
                (Stub.warm Stub.healthy tt tt tt)))
  = [@Execute Stub.healthy tt (hive_mind_sql 3);
     @InvokeModel Stub.healthy tt (@BEDROCK_MODEL Stub.healthy)
       (bedrock_body (JStr "hello")
          (composite ("ops (note): all green" ++ nl ++ "sales (deal): signed")))].
Proof.
  destruct (@warm_request_trace Stub.healthy
              (Stub.request "bedrock_chat" [("message", JStr "hello")] (JInt 7))
              [("message", JStr "hello")] (JStr "bedrock_chat") (JStr "hello")
              (Stub.warm Stub.healthy tt tt tt) tt tt)
    as (hive & Q & T).
  - reflexivity.
  - reflexivity.
  - split; [reflexivity | eexists; repeat split; reflexivity].
  - left. split; reflexivity.
  - injection Q as <-. exact T.
Defined.

(** X4 at a process that has just created its client. *)
Lemma client_reused_example :
  @get_bedrock_client Stub.echoing
    (snd (@get_bedrock_client Stub.echoing (Stub.start Stub.echoing tt)))
  = (Ok (Some tt), snd (@get_bedrock_client Stub.echoing (Stub.start Stub.echoing tt))).
Proof.
  refine (proj2 (@created_handle_is_reused Stub.echoing (Stub.start Stub.echoing tt)) tt _).
  reflexivity.
Defined.

(** X5 with nothing reachable: two calls of the getter, two creations. *)
Lemma client_retried_example :
  calls is_Boto3Client
    (trace (snd (@get_bedrock_client Stub.offline
                   (snd (@get_bedrock_client Stub.offline (Stub.start Stub.offline tt))))))
  = 2%nat.
Proof.
  refine (proj2 (proj2 (proj2 (proj1 (@failed_creation_is_retried Stub.offline
                                         (Stub.start Stub.offline tt) Stub.down) _ _)))).
  - reflexivity.
  - reflexivity.
Defined.

(** X7 at a body that is a list. *)
Lemma list_body_example :
  @mcp_endpoint Stub.offline "POST" (JArr []) (Stub.start Stub.offline tt)
  = (Raise (Raised "AttributeError" "'list' object has no attribute 'get'"),
     Stub.start Stub.offline tt).
Proof.
  refine (proj1 (@malformed_request_raises Stub.offline (Stub.start Stub.offline tt))
                (JArr []) _).
  intros items. discriminate.
Defined.

(** X8 at a chat whose arguments are a number, the store being down: the
    failure to connect is in the trace, and the request raised. *)
Lemma number_arguments_example :
  @mcp_endpoint Stub.echoing "POST"
    (JObj [("method", JStr "tools/call");
           ("params", JObj [("name", JStr "bedrock_chat"); ("arguments", JInt 3)])])
    (Stub.start Stub.echoing tt)
  = (Raise (Raised "AttributeError" "'int' object has no attribute 'get'"),
     @World Stub.echoing None None tt
            [@Connect Stub.echoing;
             @Log Stub.echoing "ERROR" "Snowflake failed: could not connect"]).
Proof.
  refine (proj1 (@bad_arguments_raise_after_query Stub.echoing
                   [("method", JStr "tools/call");
                    ("params", JObj [("name", JStr "bedrock_chat"); ("arguments", JInt 3)])]
                   (JStr "bedrock_chat") (JInt 3) (Stub.start Stub.echoing tt) _ _ _)).
  - split; [reflexivity | eexists; repeat split; reflexivity].
  - left. reflexivity.
  - intros aitems. discriminate.
Defined.

(** X9 at a store of two records, the second with a fourth column. *)
Lemma two_records_example :
  fst (@query_hive_mind Stub.healthy 3 (Stub.start Stub.healthy tt))
  = Ok ("ops (note): all green" ++ nl ++ "sales (deal): signed").
Proof.
  refine (proj1 (@context_is_rows_or_nothing Stub.healthy 3 (Stub.start Stub.healthy tt)
                   (snd (@get_snowflake_connection Stub.healthy (Stub.start Stub.healthy tt)))
                   tt
                   [[JStr "ops"; JStr "note"; JStr "all green"];
                    [JStr "sales"; JStr "deal"; JStr "signed"; JInt 4]] _ _)
                ["ops (note): all green"; "sales (deal): signed"] _).
  - reflexivity.
  - reflexivity.
  - repeat constructor; eexists _, _, _, _; split; reflexivity.
Defined.

(** X11 in a bad mood and in a good one. *)
Lemma moody_example :
  fst (@call_bedrock Stub.moody (JStr "hi") EmptyString (Stub.start Stub.moody true))
  = fst (@call_bedrock Stub.moody (JStr "hi") EmptyString (Stub.start Stub.moody false)).
Proof.
  refine (@error_text_is_in_band Stub.moody (JStr "hi") EmptyString
            (Stub.start Stub.moody true)
            (snd (@get_bedrock_client Stub.moody (Stub.start Stub.moody true)))
            (Stub.start Stub.moody false)
            (snd (@get_bedrock_client Stub.moody (Stub.start Stub.moody false)))
            tt tt Stub.throttled
            (JObj [("content",
                    JArr [JObj [("type", JStr "text"); ("text", JStr "Error: throttled")]])])
            _ _ _ _ _);
    reflexivity.
Defined.

(** X12 at a chat whose message is a number. *)
Lemma number_message_example :
  @forwards Stub.echoing (Stub.request "bedrock_chat" [("message", JInt 5)] (JInt 1))
            (JInt 5) (Stub.start Stub.echoing tt).
Proof.
  refine (proj1 (@turns_by_tool Stub.echoing
                   (Stub.request "bedrock_chat" [("message", JInt 5)] (JInt 1))
                   [("message", JInt 5)] (Stub.start Stub.echoing tt)) _ (JInt 5) _).
  - split; [reflexivity | eexists; repeat split; reflexivity].
  - reflexivity.
Defined.

(** X13 at a request without id for an unknown method. *)
Lemma envelope_example :
  exists env,
    not_found (JInt 1) = Jsonify (JObj env) /\
    lookup "jsonrpc" env = Some (JStr "2.0") /\
    lookup "id" env = Some (JInt 1) /\
    ((exists res, lookup "result" env = Some res /\ lookup "error" env = None) \/
     (lookup "result" env = None /\
      lookup "error" env
      = Some (JObj [("code", JInt (-32601)); ("message", JStr "Not found")]))).
Proof.
  refine (@reply_is_an_envelope Stub.offline [("method", JStr "ping")]
            (Stub.start Stub.offline tt) (not_found (JInt 1)) _).
  reflexivity.
Defined.

(** X14 at an answer that is a list. *)
Lemma list_answer_example :
  fst (@call_bedrock Stub.answering_list (JStr "hi") EmptyString
         (Stub.start Stub.answering_list tt))
  = Ok (JStr "Error: 'list' object has no attribute 'get'").
Proof.
  refine (proj1 (@misshapen_answer_text Stub.answering_list (JStr "hi") EmptyString
                   (Stub.start Stub.answering_list tt)
                   (snd (@get_bedrock_client Stub.answering_list
                           (Stub.start Stub.answering_list tt)))
                   tt (JArr []) _ _) _).
  - reflexivity.
  - reflexivity.
  - intros items. discriminate.
Defined.

(** X10 at a completion of a dash, a character beyond the basic plane and a
    lone surrogate. *)
Lemma printable_example :
  exists text,
    fst (@mcp_endpoint (Stub.answering (utf8 [0x2014; 0x1F600; 0xD800]%N)) "POST"
           (JObj (Stub.request "bedrock_chat" [("message", JStr "hello")] (JInt 7)))
           (Stub.start (Stub.answering (utf8 [0x2014; 0x1F600; 0xD800]%N)) tt))
    = Ok (Jsonify (JObj [("jsonrpc", JStr "2.0"); ("id", JInt 7);
                         ("result",
                          JObj [("content",
                                 JArr [JObj [("type", JStr "text");
                                             ("text", JStr text)]])])])) /\
    text = Json.dumps (JObj [("response", JStr (utf8 [0x2014; 0x1F600; 0xD800]%N))]) /\
    printable text = true.
Proof.
  refine (@envelope_text_is_printable_ascii (Stub.answering (utf8 [0x2014; 0x1F600; 0xD800]%N))
            (Stub.request "bedrock_chat" [("message", JStr "hello")] (JInt 7))
            [("message", JStr "hello")] (JStr "bedrock_chat") (JStr "hello")
            (Stub.start (Stub.answering (utf8 [0x2014; 0x1F600; 0xD800]%N)) tt)
            (snd (@query_hive_mind (Stub.answering (utf8 [0x2014; 0x1F600; 0xD800]%N)) 3
                    (Stub.start (Stub.answering (utf8 [0x2014; 0x1F600; 0xD800]%N)) tt)))
            (snd (@call_bedrock (Stub.answering (utf8 [0x2014; 0x1F600; 0xD800]%N))
                    (JStr "hello") (composite EmptyString)
                    (snd (@query_hive_mind (Stub.answering (utf8 [0x2014; 0x1F600; 0xD800]%N)) 3
                            (Stub.start (Stub.answering (utf8 [0x2014; 0x1F600; 0xD800]%N)) tt)))))
            EmptyString (utf8 [0x2014; 0x1F600; 0xD800]%N) _ _ _ _).
  - split; [reflexivity | eexists; repeat split; reflexivity].
  - left. split; reflexivity.
  - reflexivity.
  - reflexivity.
Defined.
